(** * chatlyzer: the analysis pipeline of [src/index.ts] and [src/chat.ts]

    A shallow embedding of the three functions both files define
    ([analyzeChat], [calculatePercentages], [findPeakTime]) together with the
    part of the JavaScript semantics they rest on: truthiness, plain objects
    used as string-keyed maps (own properties, the members inherited from
    [Object.prototype], the order of [Object.entries]), [parseInt], [Date],
    and [Number.prototype.toFixed] over IEEE-754 doubles. *)

From Stdlib Require Import ZArith List String Ascii Bool Lia Permutation.
From Stdlib Require Import DecimalString Floats Uint63.
Import ListNotations.

Local Open Scope string_scope.
Local Open Scope list_scope.
Local Open Scope Z_scope.

(* ===================================================================== *)
(** ** JavaScript values and control *)
(* ===================================================================== *)

Module Js.

(** The only exception the analysed code can raise. *)
Inductive exn : Type := TypeError.

(** The outcome of evaluating a statement list: it completes, or throws. *)
Inductive completion (A : Type) : Type :=
| Normal (a : A)
| Throw (e : exn).
Arguments Normal {A} a.
Arguments Throw {A} e.

Definition bind {A B} (c : completion A) (k : A -> completion B) : completion B :=
  match c with
  | Normal a => k a
  | Throw e => Throw e
  end.

(** A Number that holds an integer, or NaN.  Every Number the pipeline
    stores is a counter, a timestamp or an hour; an array holds fewer than
    2^32 elements, so the counters stay far below 2^53 and are exact. *)
Inductive num : Type :=
| Int (z : Z)
| NaN.

Definition numMul (a b : num) : num :=
  match a, b with
  | Int x, Int y => Int (x * y)
  | _, _ => NaN
  end.

Definition numAdd (a b : num) : num :=
  match a, b with
  | Int x, Int y => Int (x + y)
  | _, _ => NaN
  end.

(** [a > b]: false as soon as one side is NaN. *)
Definition numGt (a b : num) : bool :=
  match a, b with
  | Int x, Int y => y <? x
  | _, _ => false
  end.

(** ToBoolean of a Number: 0 and NaN are falsy. *)
Definition numTruthy (a : num) : bool :=
  match a with
  | Int z => negb (z =? 0)
  | NaN => false
  end.

(** ToBoolean of an optional string field: absent and [""] are falsy. *)
Definition truthy (s : option string) : bool :=
  match s with
  | Some s => negb (String.eqb s "")
  | None => false
  end.

(** [s === lit] for an optional string field. *)
Definition strictEq (s : option string) (lit : string) : bool :=
  match s with
  | Some s => String.eqb s lit
  | None => false
  end.

(** Number::toString for the integers and NaN: the property key a Number
    turns into when it indexes an object. *)
Definition numKey (n : num) : string :=
  match n with
  | Int z => NilZero.string_of_int (Z.to_int z)
  | NaN => "NaN"
  end.

(* --------------------------------------------------------------------- *)
(** *** Plain objects used as maps *)

(** The own enumerable properties of a plain object, in creation order. *)
Definition object (V : Type) : Type := list (string * V).

Fixpoint getOwn {V} (o : object V) (k : string) : option V :=
  match o with
  | [] => None
  | (k', v) :: o' => if String.eqb k' k then Some v else getOwn o' k
  end.

(** Writes own property [k]: in place when it exists, appended otherwise. *)
Fixpoint defineOwn {V} (o : object V) (k : string) (v : V) : object V :=
  match o with
  | [] => [(k, v)]
  | (k', v') :: o' =>
      if String.eqb k' k then (k', v) :: o' else (k', v') :: defineOwn o' k v
  end.

(** The members every object literal inherits from [Object.prototype]. *)
Definition objectPrototypeKeys : list string :=
  [ "constructor"; "__defineGetter__"; "__defineSetter__"; "hasOwnProperty";
    "__lookupGetter__"; "__lookupSetter__"; "isPrototypeOf";
    "propertyIsEnumerable"; "toString"; "valueOf"; "__proto__";
    "toLocaleString" ].

Definition inherited (k : string) : bool :=
  existsb (String.eqb k) objectPrototypeKeys.

(** What [o[k]] evaluates to on an object literal [o]. *)
Inductive lookup (V : Type) : Type :=
| Own (v : V)       (* an own property *)
| Inherited         (* a built-in of Object.prototype: an object, truthy *)
| Undefined.
Arguments Own {V} v.
Arguments Inherited {V}.
Arguments Undefined {V}.

Definition get {V} (o : object V) (k : string) : lookup V :=
  match getOwn o k with
  | Some v => Own v
  | None => if inherited k then Inherited else Undefined
  end.

(** [o[k] = v] on an object literal.  Every inherited member is a writable
    data property, which the assignment shadows with an own one, except the
    accessor [__proto__], whose setter adds no own property. *)
Definition put {V} (o : object V) (k : string) (v : V) : object V :=
  match getOwn o k with
  | Some _ => defineOwn o k v
  | None => if String.eqb k "__proto__" then o else defineOwn o k v
  end.

(** An array index is the canonical numeral of an integer below 2^32 - 1. *)
Definition arrayIndex (k : string) : option N :=
  match NilZero.uint_of_string k with
  | Some d =>
      let n := N.of_uint d in
      if String.eqb (NilZero.string_of_uint (N.to_uint n)) k && (n <? 4294967295)%N
      then Some n else None
  | None => None
  end.

Fixpoint insertIndexed {V} (i : N) (e : string * V)
    (l : list (N * (string * V))) : list (N * (string * V)) :=
  match l with
  | [] => [(i, e)]
  | (j, e') :: l' =>
      if (i <? j)%N then (i, e) :: l else (j, e') :: insertIndexed i e l'
  end.

Fixpoint indexedEntries {V} (o : object V) : list (N * (string * V)) :=
  match o with
  | [] => []
  | e :: o' =>
      match arrayIndex (fst e) with
      | Some i => insertIndexed i e (indexedEntries o')
      | None => indexedEntries o'
      end
  end.

Definition namedEntries {V} (o : object V) : list (string * V) :=
  filter (fun e => match arrayIndex (fst e) with Some _ => false | None => true end) o.

(** [Object.entries(o)]: array-index keys in ascending numeric order, then
    the other keys in creation order. *)
Definition entries {V} (o : object V) : list (string * V) :=
  map snd (indexedEntries o) ++ namedEntries o.

(** [Object.keys(o)]. *)
Definition keys {V} (o : object V) : list string := map fst (entries o).

(* --------------------------------------------------------------------- *)
(** *** parseInt *)

(** The blanks [parseInt] skips, among the ASCII characters the model of
    a string holds: tab, line feed, vertical tab, form feed, carriage return
    and space.  (ECMAScript also skips the blanks outside ASCII, such as
    U+00A0 and U+FEFF.) *)
Definition isWhiteSpace (c : ascii) : bool :=
  match nat_of_ascii c with
  | 9%nat | 10%nat | 11%nat | 12%nat | 13%nat | 32%nat => true
  | _ => false
  end.

Fixpoint trimStart (s : string) : string :=
  match s with
  | String c s' => if isWhiteSpace c then trimStart s' else s
  | EmptyString => s
  end.

Definition digitOf (c : ascii) : option Z :=
  let n := Z.of_nat (nat_of_ascii c) in
  if (48 <=? n) && (n <=? 57) then Some (n - 48)
  else if (97 <=? n) && (n <=? 122) then Some (n - 87)
  else if (65 <=? n) && (n <=? 90) then Some (n - 55)
  else None.

(** The longest prefix of radix-[radix] digits, as an integer. *)
Fixpoint readDigits (radix : Z) (s : string) (acc : option Z) : option Z :=
  match s with
  | String c s' =>
      match digitOf c with
      | Some d =>
          if d <? radix
          then readDigits radix s'
                 (Some (match acc with Some a => a | None => 0 end * radix + d))
          else acc
      | None => acc
      end
  | EmptyString => acc
  end.

(** [parseInt(s)] with no radix argument.  The integer is exact; the
    source rounds it to a double, which differs above 2^53 only, far beyond
    the timestamps of a valid date and the hour keys. *)
Definition parseInt (s : string) : num :=
  let s := trimStart s in
  let '(sign, s) :=
    match s with
    | String "-" s' => (-1, s')
    | String "+" s' => (1, s')
    | _ => (1, s)
    end in
  let '(radix, s) :=
    match s with
    | String "0" (String "x" s') => (16, s')
    | String "0" (String "X" s') => (16, s')
    | _ => (10, s)
    end in
  match readDigits radix s None with
  | Some n => Int (sign * n)
  | None => NaN
  end.

(* --------------------------------------------------------------------- *)
(** *** Date *)

(** What the host environment decides. *)
Record Host : Type := {
  (** offset of local time from UTC, in ms, at a given UTC time value *)
  LocalTZA : Z -> Z;
  (** Number::toString, consulted by [toFixed] from 10^21 upwards only *)
  largeToString : float -> string
}.

Definition msPerDay : Z := 86400000.
Definition msPerHour : Z := 3600000.

(** [new Date(value)]: the time value, NaN for an invalid date. *)
Definition newDate (value : num) : num :=
  match value with
  | Int t => if Z.abs t <=? 8640000000000000 then Int t else NaN
  | NaN => NaN
  end.

Definition weekdayLong (w : Z) : string :=
  match w with
  | 0 => "Sunday"
  | 1 => "Monday"
  | 2 => "Tuesday"
  | 3 => "Wednesday"
  | 4 => "Thursday"
  | 5 => "Friday"
  | _ => "Saturday"
  end.

(** [date.toLocaleString("en-US", { weekday: "long" })]. *)
Definition toLocaleWeekday (host : Host) (date : num) : string :=
  match date with
  | Int t => weekdayLong (((t + LocalTZA host t) / msPerDay + 4) mod 7)
  | NaN => "Invalid Date"
  end.

(** [date.getHours()]. *)
Definition getHours (host : Host) (date : num) : num :=
  match date with
  | Int t => Int (((t + LocalTZA host t) / msPerHour) mod 24)
  | NaN => NaN
  end.

(* --------------------------------------------------------------------- *)
(** *** Numbers as doubles, and toFixed(2) *)

(** The double holding an integer counter: exact below 2^53, and meant for
    the counters and totals of the pipeline only, which an array of fewer
    than 2^32 messages keeps far below that (from 2^63 on the conversion
    through [Uint63] wraps). *)
Definition toFloat (z : Z) : float :=
  if z <? 0 then PrimFloat.opp (PrimFloat.of_uint63 (Uint63.of_Z (- z)))
  else PrimFloat.of_uint63 (Uint63.of_Z z).

Definition numToFloat (n : num) : float :=
  match n with
  | Int z => toFloat z
  | NaN => PrimFloat.nan
  end.

(** The integer [n] for which [n / 100 - m * 2^e] is closest to zero, the
    larger one when two are equally close. *)
Definition roundHundredths (m : positive) (e : Z) : Z :=
  if 0 <=? e then 100 * Z.pos m * 2 ^ e
  else (200 * Z.pos m + 2 ^ (- e)) / 2 ^ (1 - e).

(** [m * 2^e >= 10^21]. *)
Definition atLeast1e21 (m : positive) (e : Z) : bool :=
  if 0 <=? e then 10 ^ 21 <=? Z.pos m * 2 ^ e
  else 10 ^ 21 * 2 ^ (- e) <=? Z.pos m.

Definition decimal (n : Z) : string := NilZero.string_of_int (Z.to_int n).

(** The digits of [n] with a point before the last two, zero-padded. *)
Definition twoDecimals (n : Z) : string :=
  let whole := decimal (n / 100) in
  let pad := if n mod 100 <? 10 then "0" else "" in
  let cents := decimal (n mod 100) in
  (whole ++ "." ++ pad ++ cents)%string.

(** [x.toFixed(2)]. *)
Definition toFixed2 (host : Host) (x : float) : string :=
  match Prim2SF x with
  | S754_nan => "NaN"
  | S754_infinity s => if s then "-Infinity" else "Infinity"
  | S754_zero _ => "0.00"
  | S754_finite s m e =>
      let sign := if s then "-" else "" in
      let digits :=
        if atLeast1e21 m e then largeToString host (PrimFloat.abs x)
        else twoDecimals (roundHundredths m e) in
      (sign ++ digits)%string
  end.

End Js.

Import Js.
Notation "x <- c ;; k" := (bind c (fun x => k))
  (at level 61, c at next level, right associativity).

(* ===================================================================== *)
(** ** The record model (the interfaces both files declare) *)
(* ===================================================================== *)

Record Message : Type := {
  from_id : option string;
  from : option string;
  photo : option string;
  media_type : option string;
  date_unixtime : string
}.

Module Stats.

Record Media : Type := {
  photos : Z;
  videoMessages : Z;
  videoFiles : Z;
  voice : Z;
  stickers : Z
}.

Record UserStats : Type := {
  messages : Z;
  media : Media
}.

(** The literal of index.ts:42-51 and chat.ts:43-52. *)
Definition fresh : UserStats :=
  {| messages := 0;
     media := {| photos := 0; videoMessages := 0; videoFiles := 0;
                 voice := 0; stickers := 0 |} |}.

Definition incMessages (st : UserStats) : UserStats :=
  {| messages := messages st + 1; media := media st |}.

Definition withMedia (f : Media -> Media) (st : UserStats) : UserStats :=
  {| messages := messages st; media := f (media st) |}.

Definition incPhotos (m : Media) : Media :=
  {| photos := photos m + 1; videoMessages := videoMessages m;
     videoFiles := videoFiles m; voice := voice m; stickers := stickers m |}.

Definition incVideoMessages (m : Media) : Media :=
  {| photos := photos m; videoMessages := videoMessages m + 1;
     videoFiles := videoFiles m; voice := voice m; stickers := stickers m |}.

Definition incVideoFiles (m : Media) : Media :=
  {| photos := photos m; videoMessages := videoMessages m;
     videoFiles := videoFiles m + 1; voice := voice m; stickers := stickers m |}.

Definition incVoice (m : Media) : Media :=
  {| photos := photos m; videoMessages := videoMessages m;
     videoFiles := videoFiles m; voice := voice m + 1; stickers := stickers m |}.

Definition incStickers (m : Media) : Media :=
  {| photos := photos m; videoMessages := videoMessages m;
     videoFiles := videoFiles m; voice := voice m; stickers := stickers m + 1 |}.

End Stats.

Definition TimeStats : Type := object (object num).

Module ChatData.
Record t : Type := { messages : list Message }.
End ChatData.

(** What [analyzeChat] returns. *)
Record Analysis : Type := {
  userStats : object Stats.UserStats;
  userNames : object string;
  timeStats : TimeStats
}.

Definition noAnalysis : Analysis :=
  {| userStats := []; userNames := []; timeStats := [] |}.

(** What [calculatePercentages] stores per user. *)
Module Pct.

Record Share : Type := {
  userPercentage : string;
  totalPercentage : string
}.

Record Media : Type := {
  photos : Share;
  videoMessages : Share;
  videoFiles : Share;
  voice : Share;
  stickers : Share
}.

Record t : Type := {
  total : string;
  media : Media
}.

End Pct.

(** [messages.forEach(body)] over the aggregation state. *)
Fixpoint forEach {S M : Type} (body : S -> M -> completion S) (msgs : list M)
    (s : S) : completion S :=
  match msgs with
  | [] => Normal s
  | m :: rest => s' <- body s m ;; forEach body rest s'
  end.

(** [userStats[id].messages++]: the counter of an own entry goes up in
    place; on a member inherited from Object.prototype the increment lands on
    that built-in and no entry of [userStats] changes.  What the loop writes
    on a built-in is no part of the three objects [analyzeChat] returns, and
    none of the three functions reads it back. *)
Definition bumpMessages (us : object Stats.UserStats) (id : string)
  : completion (object Stats.UserStats) :=
  match get us id with
  | Own st => Normal (defineOwn us id (Stats.incMessages st))
  | Inherited => Normal us
  | Undefined => Throw TypeError
  end.

(** [userStats[id].media.<kind>++]: a built-in of Object.prototype has no
    [media], so reading a counter of it throws a TypeError. *)
Definition bumpMedia (inc : Stats.Media -> Stats.Media)
    (us : object Stats.UserStats) (id : string)
  : completion (object Stats.UserStats) :=
  match get us id with
  | Own st => Normal (defineOwn us id (Stats.withMedia inc st))
  | Inherited => Throw TypeError
  | Undefined => Throw TypeError
  end.

(** [if (cond) statement]. *)
Definition when {A} (cond : bool) (stmt : A -> completion A) (a : A)
  : completion A :=
  if cond then stmt a else Normal a.

(** [c || 0] for what the read of a cell yields.  An hour key is a numeral
    or ["NaN"], never the name of an inherited member, so a cell is read as
    an own property. *)
Definition orZero (c : option num) : num :=
  match c with
  | Some c => if numTruthy c then c else Int 0
  | None => Int 0
  end.

(** The operand of [x++] read from a cell: [undefined] converts to NaN. *)
Definition toNumber (c : option num) : num :=
  match c with
  | Some c => c
  | None => NaN
  end.

(** ToBoolean of what a cell read yields. *)
Definition cellTruthy (c : option num) : bool :=
  match c with
  | Some c => numTruthy c
  | None => false
  end.

(* ===================================================================== *)
(** ** What both [main] print with *)
(* ===================================================================== *)

(** The styling functions index.ts imports from picocolors. *)
Module Picocolors.
Record t : Type := {
  bold : string -> string;
  underline : string -> string;
  green : string -> string;
  blue : string -> string;
  cyan : string -> string;
  gray : string -> string;
  yellow : string -> string
}.
End Picocolors.

(** The styles chat.ts takes from chalk; [boldUnderline] is
    [chalk.bold.underline]. *)
Module Chalk.
Record t : Type := {
  boldUnderline : string -> string;
  bold : string -> string;
  green : string -> string;
  blue : string -> string;
  cyan : string -> string;
  gray : string -> string;
  yellow : string -> string
}.
End Chalk.

(** What a run has passed to [console.log], line by line, and how it ended. *)
Definition run : Type := list string * completion unit.

(** A [for ... of] loop whose body prints: it stops at the first body that
    throws, with the lines printed so far. *)
Fixpoint printEach {A} (body : A -> run) (l : list A) : run :=
  match l with
  | [] => ([], Normal tt)
  | a :: rest =>
      match body a with
      | (lines, Normal _) =>
          let '(more, c) := printEach body rest in (lines ++ more, c)
      | (lines, Throw e) => (lines, Throw e)
      end
  end.

(** [s.padStart(2, "0")]. *)
Definition padStart2 (s : string) : string :=
  match String.length s with
  | 0%nat => ("00" ++ s)%string
  | 1%nat => ("0" ++ s)%string
  | _ => s
  end.

(** The line feed that starts two of the headings. *)
Definition lineFeed : string := String (ascii_of_nat 10) "".

(** [`  ${label}: ${count} (${share.userPercentage} of user,
    ${share.totalPercentage} of total)`], the shape of the five media lines
    (index.ts:141-145, chat.ts:187-211). *)
Definition mediaLine (label : string) (count : Z) (share : Pct.Share) : string :=
  ("  " ++ label ++ ": " ++ decimal count ++ " (" ++ Pct.userPercentage share
   ++ " of user, " ++ Pct.totalPercentage share ++ " of total)")%string.

(** [userNames[user] || "Unknown"]; [memberText] is the text a template
    gives for a built-in member of Object.prototype. *)
Definition displayName (memberText : string -> string) (userNames : object string)
    (user : string) : string :=
  match get userNames user with
  | Own name => if truthy (Some name) then name else "Unknown"
  | Inherited => memberText user
  | Undefined => "Unknown"
  end.

(* ===================================================================== *)
(** ** src/index.ts *)
(* ===================================================================== *)

Module Index.

Section WithHost.
Variable host : Host.

(** index.ts:38-69, the callback of [forEach]. *)
Definition forEachBody (acc : Analysis) (message : Message) : completion Analysis :=
  (* 39 *)
  match from_id message with
  | None => Normal acc
  | Some id =>
  if negb (truthy (Some id)) then Normal acc else
  (* 41-52 *)
  let us :=
    match get (userStats acc) id with
    | Undefined => put (userStats acc) id Stats.fresh
    | _ => userStats acc
    end in
  (* 54 *)
  us <- bumpMessages us id ;;
  (* 55 *)
  let un :=
    match from message with
    | Some name => if truthy (Some name) then put (userNames acc) id name
                   else userNames acc
    | None => userNames acc
    end in
  (* 57-61 *)
  us <- when (truthy (photo message))
          (fun us => bumpMedia Stats.incPhotos us id) us ;;
  us <- when (strictEq (media_type message) "video_message")
          (fun us => bumpMedia Stats.incVideoMessages us id) us ;;
  us <- when (strictEq (media_type message) "video_file")
          (fun us => bumpMedia Stats.incVideoFiles us id) us ;;
  us <- when (strictEq (media_type message) "voice_message")
          (fun us => bumpMedia Stats.incVoice us id) us ;;
  us <- when (strictEq (media_type message) "sticker")
          (fun us => bumpMedia Stats.incStickers us id) us ;;
  (* 63-65 *)
  let date := newDate (numMul (parseInt (date_unixtime message)) (Int 1000)) in
  let dayOfWeek := toLocaleWeekday host date in
  let hour := getHours host date in
  (* 67 *)
  let ts :=
    match get (timeStats acc) dayOfWeek with
    | Undefined => put (timeStats acc) dayOfWeek []
    | _ => timeStats acc
    end in
  (* 68 *)
  ts <- match get ts dayOfWeek with
        | Own hours =>
            Normal (put ts dayOfWeek
                      (put hours (numKey hour)
                         (numAdd (orZero (getOwn hours (numKey hour))) (Int 1))))
        | Inherited => Normal ts
        | Undefined => Throw TypeError
        end ;;
  Normal {| userStats := us; userNames := un; timeStats := ts |}
  end.

(** index.ts:33-72. *)
Definition analyzeChat (jsonData : ChatData.t) : completion Analysis :=
  forEach forEachBody (ChatData.messages jsonData) noAnalysis.

(** [((a / b) * 100).toFixed(2) + "%"]. *)
Definition percent (a b : Z) : string :=
  (toFixed2 host (PrimFloat.mul (PrimFloat.div (toFloat a) (toFloat b)) (toFloat 100))
   ++ "%")%string.

Definition share (count : Z) (stats : Stats.UserStats) (totalMessages : Z) : Pct.Share :=
  {| Pct.userPercentage := percent count (Stats.messages stats);
     Pct.totalPercentage := percent count totalMessages |}.

(** index.ts:78-102, the object stored under [percentages[user]]. *)
Definition percentagesOf (stats : Stats.UserStats) (totalMessages : Z) : Pct.t :=
  {| Pct.total := percent (Stats.messages stats) totalMessages;
     Pct.media :=
       {| Pct.photos := share (Stats.photos (Stats.media stats)) stats totalMessages;
          Pct.videoMessages :=
            share (Stats.videoMessages (Stats.media stats)) stats totalMessages;
          Pct.videoFiles :=
            share (Stats.videoFiles (Stats.media stats)) stats totalMessages;
          Pct.voice := share (Stats.voice (Stats.media stats)) stats totalMessages;
          Pct.stickers :=
            share (Stats.stickers (Stats.media stats)) stats totalMessages |} |}.

(** index.ts:74-106. *)
Definition calculatePercentages (userStats : object Stats.UserStats)
    (totalMessages : Z) : object Pct.t :=
  fold_left
    (fun percentages '(user, stats) =>
       put percentages user (percentagesOf stats totalMessages))
    (entries userStats) [].

End WithHost.

Record Peak : Type := {
  peakDay : string;
  peakHour : num;
  maxMessages : num
}.

(** index.ts:114-120, the inner loop over the hours of one day. *)
Definition scanHours (day : string) (hours : object num) (best : Peak) : Peak :=
  fold_left
    (fun best '(hour, count) =>
       if numGt count (maxMessages best)
       then {| peakDay := day; peakHour := parseInt hour; maxMessages := count |}
       else best)
    (entries hours) best.

(** index.ts:108-124. *)
Definition findPeakTime (timeStats : TimeStats) : Peak :=
  fold_left
    (fun best '(day, hours) => scanHours day hours best)
    (entries timeStats)
    {| peakDay := ""; peakHour := Int (-1); maxMessages := Int 0 |}.

Section Rendering.
Variable host : Host.
Variable colors : Picocolors.t.
Variable memberText : string -> string.

(** index.ts:136-147, the body of the loop over the users.  Reading
    [userPercentages[user].total] throws when the user has no record; on a
    built-in member [total] is [undefined] and reading [media.photos] of it
    throws two lines later. *)
Definition userBlock (userNames : object string) (userPercentages : object Pct.t)
    (entry : string * Stats.UserStats) : run :=
  let '(user, stats) := entry in
  (* 137 *)
  let username := displayName memberText userNames user in
  (* 138 *)
  let line138 :=
    Picocolors.bold colors ("User: " ++ user ++ " (" ++ username ++ ")")%string in
  match get userPercentages user with
  | Undefined => ([line138], Throw TypeError)
  | Inherited =>
      ([ line138;
         Picocolors.green colors
           ("Total Messages: " ++ decimal (Stats.messages stats) ++ " (undefined)")%string;
         Picocolors.blue colors "Media:" ],
       Throw TypeError)
  | Own p =>
      ([ line138;
         (* 139 *)
         Picocolors.green colors
           ("Total Messages: " ++ decimal (Stats.messages stats)
            ++ " (" ++ Pct.total p ++ ")")%string;
         (* 140 *)
         Picocolors.blue colors "Media:";
         (* 141-145 *)
         Picocolors.cyan colors
           (mediaLine "Photos" (Stats.photos (Stats.media stats))
              (Pct.photos (Pct.media p)));
         Picocolors.cyan colors
           (mediaLine "Video Messages" (Stats.videoMessages (Stats.media stats))
              (Pct.videoMessages (Pct.media p)));
         Picocolors.cyan colors
           (mediaLine "Video Files" (Stats.videoFiles (Stats.media stats))
              (Pct.videoFiles (Pct.media p)));
         Picocolors.cyan colors
           (mediaLine "Voice Messages" (Stats.voice (Stats.media stats))
              (Pct.voice (Pct.media p)));
         Picocolors.cyan colors
           (mediaLine "Stickers" (Stats.stickers (Stats.media stats))
              (Pct.stickers (Pct.media p)));
         (* 146 *)
         Picocolors.gray colors "-----------------------------" ],
       Normal tt)
  end.

(** index.ts:149-152, the peak block. *)
Definition peakBlock (peak : Peak) : list string :=
  [ Picocolors.bold colors
      (Picocolors.underline colors (lineFeed ++ "Peak Time for Messages:")%string);
    Picocolors.yellow colors ("Day: " ++ peakDay peak)%string;
    Picocolors.yellow colors
      ("Time: " ++ padStart2 (numKey (peakHour peak)) ++ ":00 - "
       ++ padStart2 (numKey (numAdd (peakHour peak) (Int 1))) ++ ":00")%string;
    Picocolors.yellow colors ("Total Messages: " ++ numKey (maxMessages peak))%string ].

(** index.ts:126-153, from the parsed content of result.json on.  The
    [userStats] it iterates is the one [analyzeChat] returned, which has no
    key [__proto__], so [userPercentages] keeps Object.prototype as its
    prototype. *)
Definition main (jsonData : ChatData.t) : run :=
  (* 128 *)
  match analyzeChat host jsonData with
  | Throw e => ([], Throw e)
  | Normal analysis =>
      (* 129-131 *)
      let totalMessages := Z.of_nat (List.length (ChatData.messages jsonData)) in
      let userPercentages :=
        calculatePercentages host (userStats analysis) totalMessages in
      let peak := findPeakTime (timeStats analysis) in
      (* 133-135 *)
      let heading :=
        [ Picocolors.bold colors
            (Picocolors.underline colors
               ("Total Messages: " ++ decimal totalMessages)%string);
          Picocolors.bold colors
            (Picocolors.underline colors (lineFeed ++ "User Statistics:")%string) ] in
      (* 136-147 *)
      match printEach (userBlock (userNames analysis) userPercentages)
              (entries (userStats analysis)) with
      | (blocks, Throw e) => (heading ++ blocks, Throw e)
      | (blocks, Normal _) =>
          (* 149-152 *)
          (heading ++ blocks ++ peakBlock peak, Normal tt)
      end
  end.

End Rendering.

End Index.

(* ===================================================================== *)
(** ** src/chat.ts *)
(* ===================================================================== *)

Module Chat.

Section WithHost.
Variable host : Host.

(** chat.ts:38-80, the callback of [forEach]. *)
Definition forEachBody (acc : Analysis) (message : Message) : completion Analysis :=
  (* 39-40 *)
  let fromUser := from_id message in
  match fromUser with
  | None => Normal acc
  | Some fromUser =>
  if negb (truthy (Some fromUser)) then Normal acc else
  (* 42-53 *)
  let us :=
    match get (userStats acc) fromUser with
    | Undefined => put (userStats acc) fromUser Stats.fresh
    | _ => userStats acc
    end in
  (* 55 *)
  us <- bumpMessages us fromUser ;;
  (* 56 *)
  let un :=
    match from message with
    | Some name => if truthy (Some name) then put (userNames acc) fromUser name
                   else userNames acc
    | None => userNames acc
    end in
  (* 58-67 *)
  us <- when (truthy (photo message))
          (fun us => bumpMedia Stats.incPhotos us fromUser) us ;;
  us <- when (strictEq (media_type message) "video_message")
          (fun us => bumpMedia Stats.incVideoMessages us fromUser) us ;;
  us <- when (strictEq (media_type message) "video_file")
          (fun us => bumpMedia Stats.incVideoFiles us fromUser) us ;;
  us <- when (strictEq (media_type message) "voice_message")
          (fun us => bumpMedia Stats.incVoice us fromUser) us ;;
  us <- when (strictEq (media_type message) "sticker")
          (fun us => bumpMedia Stats.incStickers us fromUser) us ;;
  (* 69-71 *)
  let date := newDate (numMul (parseInt (date_unixtime message)) (Int 1000)) in
  let dayOfWeek := toLocaleWeekday host date in
  let hour := getHours host date in
  (* 73-75 *)
  let ts :=
    match get (timeStats acc) dayOfWeek with
    | Undefined => put (timeStats acc) dayOfWeek []
    | _ => timeStats acc
    end in
  (* 76-78 *)
  ts <- match get ts dayOfWeek with
        | Own hours =>
            Normal (if cellTruthy (getOwn hours (numKey hour)) then ts
                    else put ts dayOfWeek (put hours (numKey hour) (Int 0)))
        | Inherited => Normal ts
        | Undefined => Throw TypeError
        end ;;
  (* 79 *)
  ts <- match get ts dayOfWeek with
        | Own hours =>
            Normal (put ts dayOfWeek
                      (put hours (numKey hour)
                         (numAdd (toNumber (getOwn hours (numKey hour))) (Int 1))))
        | Inherited => Normal ts
        | Undefined => Throw TypeError
        end ;;
  Normal {| userStats := us; userNames := un; timeStats := ts |}
  end.

(** chat.ts:33-83. *)
Definition analyzeChat (jsonData : ChatData.t) : completion Analysis :=
  forEach forEachBody (ChatData.messages jsonData) noAnalysis.

(** [((a / b) * 100).toFixed(2) + "%"]. *)
Definition percent (a b : Z) : string :=
  (toFixed2 host (PrimFloat.mul (PrimFloat.div (toFloat a) (toFloat b)) (toFloat 100))
   ++ "%")%string.

(** chat.ts:92-128, the object stored under [percentages[user]]. *)
Definition percentagesOf (stats : Stats.UserStats) (totalMessages : Z) : Pct.t :=
  {| Pct.total := percent (Stats.messages stats) totalMessages;
     Pct.media :=
       {| Pct.photos :=
            {| Pct.userPercentage :=
                 percent (Stats.photos (Stats.media stats)) (Stats.messages stats);
               Pct.totalPercentage :=
                 percent (Stats.photos (Stats.media stats)) totalMessages |};
          Pct.videoMessages :=
            {| Pct.userPercentage :=
                 percent (Stats.videoMessages (Stats.media stats)) (Stats.messages stats);
               Pct.totalPercentage :=
                 percent (Stats.videoMessages (Stats.media stats)) totalMessages |};
          Pct.videoFiles :=
            {| Pct.userPercentage :=
                 percent (Stats.videoFiles (Stats.media stats)) (Stats.messages stats);
               Pct.totalPercentage :=
                 percent (Stats.videoFiles (Stats.media stats)) totalMessages |};
          Pct.voice :=
            {| Pct.userPercentage :=
                 percent (Stats.voice (Stats.media stats)) (Stats.messages stats);
               Pct.totalPercentage :=
                 percent (Stats.voice (Stats.media stats)) totalMessages |};
          Pct.stickers :=
            {| Pct.userPercentage :=
                 percent (Stats.stickers (Stats.media stats)) (Stats.messages stats);
               Pct.totalPercentage :=
                 percent (Stats.stickers (Stats.media stats)) totalMessages |} |} |}.

(** chat.ts:85-132. *)
Definition calculatePercentages (userStats : object Stats.UserStats)
    (totalMessages : Z) : object Pct.t :=
  fold_left
    (fun percentages '(user, stats) =>
       put percentages user (percentagesOf stats totalMessages))
    (entries userStats) [].

Record Peak : Type := {
  peakDay : string;
  peakHour : num;
  maxMessages : num;
  averageMessages : string
}.

(** chat.ts:139-147: the two loops over the variables
    [(peakDay, peakHour, maxMessages)]. *)
Definition scan (timeStats : TimeStats) : string * num * num :=
  fold_left
    (fun vars '(day, hours) =>
       fold_left
         (fun '(peakDay, peakHour, maxMessages) '(hour, count) =>
            if numGt count maxMessages then (day, parseInt hour, count)
            else (peakDay, peakHour, maxMessages))
         (entries hours) vars)
    (entries timeStats) ("", Int (-1), Int 0).

(** chat.ts:134-153.  [peakDay] is [""] or a key of [timeStats], so
    [timeStats[peakDay]] is an own property or [undefined], and
    [Object.keys(undefined)] throws a TypeError. *)
Definition findPeakTime (timeStats : TimeStats) : completion Peak :=
  let '(peakDay, peakHour, maxMessages) := scan timeStats in
  (* 149 *)
  match getOwn timeStats peakDay with
  | None => Throw TypeError
  | Some hours =>
      let totalDays := Z.of_nat (List.length (keys hours)) in
      (* 150 *)
      let averageMessages :=
        toFixed2 host (PrimFloat.div (numToFloat maxMessages) (toFloat totalDays)) in
      Normal {| peakDay := peakDay; peakHour := peakHour;
                maxMessages := maxMessages; averageMessages := averageMessages |}
  end.

End WithHost.

(** chat.ts:160-164. *)
Definition formatHour (hour : num) : string :=
  (padStart2 (numKey hour) ++ ":00 - "
   ++ padStart2 (numKey (numAdd hour (Int 1))) ++ ":00")%string.

Section Rendering.
Variable host : Host.
Variable chalk : Chalk.t.
Variable memberText : string -> string.

(** chat.ts:178-213, the body of the loop over the users. *)
Definition userBlock (userNames : object string) (userPercentages : object Pct.t)
    (entry : string * Stats.UserStats) : run :=
  let '(user, stats) := entry in
  (* 179 *)
  let username := displayName memberText userNames user in
  (* 180 *)
  let line180 :=
    Chalk.bold chalk ("User: " ++ user ++ " (" ++ username ++ ")")%string in
  match get userPercentages user with
  | Undefined => ([line180], Throw TypeError)
  | Inherited =>
      ([ line180;
         Chalk.green chalk
           ("Total Messages: " ++ decimal (Stats.messages stats) ++ " (undefined)")%string;
         Chalk.blue chalk "Media:" ],
       Throw TypeError)
  | Own p =>
      ([ line180;
         (* 181-185 *)
         Chalk.green chalk
           ("Total Messages: " ++ decimal (Stats.messages stats)
            ++ " (" ++ Pct.total p ++ ")")%string;
         (* 186 *)
         Chalk.blue chalk "Media:";
         (* 187-211 *)
         Chalk.cyan chalk
           (mediaLine "Photos" (Stats.photos (Stats.media stats))
              (Pct.photos (Pct.media p)));
         Chalk.cyan chalk
           (mediaLine "Video Messages" (Stats.videoMessages (Stats.media stats))
              (Pct.videoMessages (Pct.media p)));
         Chalk.cyan chalk
           (mediaLine "Video Files" (Stats.videoFiles (Stats.media stats))
              (Pct.videoFiles (Pct.media p)));
         Chalk.cyan chalk
           (mediaLine "Voice Messages" (Stats.voice (Stats.media stats))
              (Pct.voice (Pct.media p)));
         Chalk.cyan chalk
           (mediaLine "Stickers" (Stats.stickers (Stats.media stats))
              (Pct.stickers (Pct.media p)));
         (* 212 *)
         Chalk.gray chalk "-----------------------------" ],
       Normal tt)
  end.

(** chat.ts:215-219, the peak block. *)
Definition peakBlock (peak : Peak) : list string :=
  [ Chalk.boldUnderline chalk (lineFeed ++ "Peak Time for Messages:")%string;
    Chalk.yellow chalk ("Day: " ++ peakDay peak)%string;
    Chalk.yellow chalk ("Time: " ++ formatHour (peakHour peak))%string;
    Chalk.yellow chalk ("Total Messages: " ++ numKey (maxMessages peak))%string;
    Chalk.yellow chalk ("Average Messages: " ++ averageMessages peak)%string ].

(** chat.ts:166-220, from the value [loadJson] returns on.  [findPeakTime]
    is called before the first line is printed. *)
Definition main (jsonData : ChatData.t) : run :=
  (* 169 *)
  match analyzeChat host jsonData with
  | Throw e => ([], Throw e)
  | Normal analysis =>
      (* 170-171 *)
      let totalMessages := Z.of_nat (List.length (ChatData.messages jsonData)) in
      let userPercentages :=
        calculatePercentages host (userStats analysis) totalMessages in
      (* 172-173 *)
      match findPeakTime host (timeStats analysis) with
      | Throw e => ([], Throw e)
      | Normal peak =>
          (* 175-177 *)
          let heading :=
            [ Chalk.boldUnderline chalk ("Total Messages: " ++ decimal totalMessages)%string;
              Chalk.boldUnderline chalk (lineFeed ++ "User Statistics:")%string ] in
          (* 178-213 *)
          match printEach (userBlock (userNames analysis) userPercentages)
                  (entries (userStats analysis)) with
          | (blocks, Throw e) => (heading ++ blocks, Throw e)
          | (blocks, Normal _) =>
              (* 215-219 *)
              (heading ++ blocks ++ peakBlock peak, Normal tt)
          end
      end
  end.

End Rendering.

End Chat.

(* ===================================================================== *)
(** ** Quantities the properties speak of *)
(* ===================================================================== *)

(** The sum of [f] over the values of a list of entries. *)
Definition sumOver {V} (f : V -> Z) (l : list (string * V)) : Z :=
  fold_right (fun e acc => f (snd e) + acc) 0 l.

(** The sum of the Numbers held by the cells of one day. *)
Definition hoursTotal (hours : object num) : num :=
  fold_right (fun e acc => numAdd (snd e) acc) (Int 0) (entries hours).

(** The sum of all the cells of a histogram. *)
Definition cellTotal (ts : TimeStats) : num :=
  fold_right (fun e acc => numAdd (hoursTotal (snd e)) acc) (Int 0) (entries ts).

(** The cells of a histogram in the order the two loops of [findPeakTime]
    visit them. *)
Definition cells (ts : TimeStats) : list (string * string * num) :=
  flat_map (fun '(day, hours) => map (fun '(hour, count) => (day, hour, count)) (entries hours))
    (entries ts).

Definition countIf {A} (p : A -> bool) (l : list A) : Z :=
  Z.of_nat (List.length (filter p l)).

(** The message carries a sender id that is present and non-empty. *)
Definition hasSender (m : Message) : bool := truthy (from_id m).

(** The message is sent by [id]. *)
Definition sentBy (id : string) (m : Message) : bool :=
  match from_id m with
  | Some i => String.eqb i id && truthy (Some i)
  | None => false
  end.

(** The sender id is the name of a member inherited from Object.prototype. *)
Definition builtinSender (m : Message) : bool :=
  match from_id m with
  | Some i => inherited i
  | None => false
  end.

(** The timestamp of the message parses as an integer. *)
Definition parseable (m : Message) : bool :=
  match parseInt (date_unixtime m) with
  | Int _ => true
  | NaN => false
  end.

(** The five media kinds. *)
Inductive Kind : Type := Photos | VideoMessages | VideoFiles | Voice | Stickers.

Definition hasKind (k : Kind) (m : Message) : bool :=
  match k with
  | Photos => truthy (photo m)
  | VideoMessages => strictEq (media_type m) "video_message"
  | VideoFiles => strictEq (media_type m) "video_file"
  | Voice => strictEq (media_type m) "voice_message"
  | Stickers => strictEq (media_type m) "sticker"
  end.

Definition kindCount (k : Kind) (st : Stats.UserStats) : Z :=
  match k with
  | Photos => Stats.photos (Stats.media st)
  | VideoMessages => Stats.videoMessages (Stats.media st)
  | VideoFiles => Stats.videoFiles (Stats.media st)
  | Voice => Stats.voice (Stats.media st)
  | Stickers => Stats.stickers (Stats.media st)
  end.

Definition kindShare (k : Kind) (p : Pct.t) : Pct.Share :=
  match k with
  | Photos => Pct.photos (Pct.media p)
  | VideoMessages => Pct.videoMessages (Pct.media p)
  | VideoFiles => Pct.videoFiles (Pct.media p)
  | Voice => Pct.voice (Pct.media p)
  | Stickers => Pct.stickers (Pct.media p)
  end.

(** The non-empty display names [id] supplied, in input order. *)
Definition namesOf (id : string) (msgs : list Message) : list string :=
  flat_map
    (fun m =>
       if sentBy id m then
         match from m with
         | Some name => if truthy (Some name) then [name] else []
         | None => []
         end
       else [])
    msgs.

(** The last of them, if any. *)
Definition lastName (id : string) (msgs : list Message) : option string :=
  last (map Some (namesOf id msgs)) None.

(** The value a two-decimal percentage string denotes, in hundredths of a
    percent: ["33.33%"] is 3333. *)
Fixpoint allDigits (s : string) (acc : Z) : option Z :=
  match s with
  | EmptyString => Some acc
  | String c s' =>
      let n := Z.of_nat (nat_of_ascii c) in
      if (48 <=? n) && (n <=? 57) then allDigits s' (acc * 10 + (n - 48)) else None
  end.

Fixpoint splitAt (sep : ascii) (s : string) : option (string * string) :=
  match s with
  | EmptyString => None
  | String c s' =>
      if Ascii.eqb c sep then Some (EmptyString, s')
      else match splitAt sep s' with
           | Some (a, b) => Some (String c a, b)
           | None => None
           end
  end.

Definition hundredths (pct : string) : option Z :=
  match splitAt "." pct with
  | Some (whole, String d1 (String d2 "%")) =>
      match whole, allDigits whole 0, allDigits (String d1 (String d2 "")) 0 with
      | String _ _, Some w, Some c => Some (w * 100 + c)
      | _, _, _ => None
      end
  | _ => None
  end.

Definition sumHundredths (l : list string) : option Z :=
  fold_right
    (fun s acc =>
       match hundredths s, acc with
       | Some x, Some a => Some (x + a)
       | _, _ => None
       end)
    (Some 0) l.

(** The data-model invariant of a TimeHistogram: keys are distinct, a day
    is present only with a cell, and a cell holds an integer count of at
    least 1. *)
Definition distinctKeys {V} (o : object V) : Prop := NoDup (map fst o).

Definition positiveCell (c : num) : Prop := exists z, c = Int z /\ 1 <= z.

Definition histogram (ts : TimeStats) : Prop :=
  distinctKeys ts /\
  Forall (fun e => distinctKeys (snd e) /\ snd e <> [] /\
                   Forall (fun c => positiveCell (snd c)) (snd e)) ts.

(** A host in the UTC time zone. *)
Definition utc : Host := {| LocalTZA := fun _ => 0; largeToString := fun _ => "" |}.

Definition mkMessage (id name ph kind : option string) (time : string) : Message :=
  {| from_id := id; from := name; photo := ph; media_type := kind;
     date_unixtime := time |}.

(* ===================================================================== *)
(** ** The three strands of the callback *)
(* ===================================================================== *)

(** The statements of the callback that touch [userStats]
    (index.ts:41-54 and 57-61, chat.ts:42-55 and 58-67). *)
Definition tallyUser (m : Message) (id : string) (us : object Stats.UserStats)
  : completion (object Stats.UserStats) :=
  let us :=
    match get us id with
    | Undefined => put us id Stats.fresh
    | _ => us
    end in
  us <- bumpMessages us id ;;
  us <- when (truthy (photo m)) (fun us => bumpMedia Stats.incPhotos us id) us ;;
  us <- when (strictEq (media_type m) "video_message")
          (fun us => bumpMedia Stats.incVideoMessages us id) us ;;
  us <- when (strictEq (media_type m) "video_file")
          (fun us => bumpMedia Stats.incVideoFiles us id) us ;;
  us <- when (strictEq (media_type m) "voice_message")
          (fun us => bumpMedia Stats.incVoice us id) us ;;
  when (strictEq (media_type m) "sticker")
    (fun us => bumpMedia Stats.incStickers us id) us.

(** What those statements do to the sender's own entry. *)
Definition tally (m : Message) (st : Stats.UserStats) : Stats.UserStats :=
  let st := Stats.incMessages st in
  let st := if truthy (photo m) then Stats.withMedia Stats.incPhotos st else st in
  let st := if strictEq (media_type m) "video_message"
            then Stats.withMedia Stats.incVideoMessages st else st in
  let st := if strictEq (media_type m) "video_file"
            then Stats.withMedia Stats.incVideoFiles st else st in
  let st := if strictEq (media_type m) "voice_message"
            then Stats.withMedia Stats.incVoice st else st in
  if strictEq (media_type m) "sticker"
  then Stats.withMedia Stats.incStickers st else st.

(** The message matches one of the five media tests. *)
Definition anyKind (m : Message) : bool :=
  truthy (photo m)
  || strictEq (media_type m) "video_message"
  || strictEq (media_type m) "video_file"
  || strictEq (media_type m) "voice_message"
  || strictEq (media_type m) "sticker".

(** The statement that touches [userNames] (index.ts:55, chat.ts:56). *)
Definition recordName (m : Message) (id : string) (un : object string)
  : object string :=
  match from m with
  | Some name => if truthy (Some name) then put un id name else un
  | None => un
  end.

(** The weekday and hour of a message (index.ts:63-65, chat.ts:69-71). *)
Definition dayOf (host : Host) (m : Message) : string :=
  toLocaleWeekday host (newDate (numMul (parseInt (date_unixtime m)) (Int 1000))).

Definition hourOf (host : Host) (m : Message) : num :=
  getHours host (newDate (numMul (parseInt (date_unixtime m)) (Int 1000))).

(** The statements that touch [timeStats]: index.ts:67-68. *)
Definition recordCellIndex (dayOfWeek : string) (hour : num) (ts : TimeStats)
  : completion TimeStats :=
  let ts :=
    match get ts dayOfWeek with
    | Undefined => put ts dayOfWeek []
    | _ => ts
    end in
  match get ts dayOfWeek with
  | Own hours =>
      Normal (put ts dayOfWeek
                (put hours (numKey hour)
                   (numAdd (orZero (getOwn hours (numKey hour))) (Int 1))))
  | Inherited => Normal ts
  | Undefined => Throw TypeError
  end.

(** The statements that touch [timeStats]: chat.ts:73-79. *)
Definition recordCellChat (dayOfWeek : string) (hour : num) (ts : TimeStats)
  : completion TimeStats :=
  let ts :=
    match get ts dayOfWeek with
    | Undefined => put ts dayOfWeek []
    | _ => ts
    end in
  ts <- match get ts dayOfWeek with
        | Own hours =>
            Normal (if cellTruthy (getOwn hours (numKey hour)) then ts
                    else put ts dayOfWeek (put hours (numKey hour) (Int 0)))
        | Inherited => Normal ts
        | Undefined => Throw TypeError
        end ;;
  match get ts dayOfWeek with
  | Own hours =>
      Normal (put ts dayOfWeek
                (put hours (numKey hour)
                   (numAdd (toNumber (getOwn hours (numKey hour))) (Int 1))))
  | Inherited => Normal ts
  | Undefined => Throw TypeError
  end.

(** The callback as the composition of its strands. *)
Definition strands (recordCell : string -> num -> TimeStats -> completion TimeStats)
    (host : Host) (acc : Analysis) (m : Message) : completion Analysis :=
  match from_id m with
  | None => Normal acc
  | Some id =>
      if negb (truthy (Some id)) then Normal acc else
      us <- tallyUser m id (userStats acc) ;;
      ts <- recordCell (dayOf host m) (hourOf host m) (timeStats acc) ;;
      Normal {| userStats := us; userNames := recordName m id (userNames acc);
                timeStats := ts |}
  end.

(** The integer a cell holds (0 for NaN), and the sums of those integers
    over a day and over a histogram. *)
Definition cellZ (c : num) : Z :=
  match c with
  | Int z => z
  | NaN => 0
  end.

Definition hoursZ (hours : object num) : Z := sumOver cellZ hours.

Definition histZ (ts : TimeStats) : Z := sumOver hoursZ ts.

(** The hour object of a day, empty when the day has none yet. *)
Definition hoursOf (ts : TimeStats) (day : string) : object num :=
  match getOwn ts day with
  | Some hours => hours
  | None => []
  end.

(** Each media counter is at most the message counter. *)
Definition bounded (st : Stats.UserStats) : Prop :=
  forall k, kindCount k st <= Stats.messages st.

(** One step of the scan of [findPeakTime] over a cell. *)
Definition better (best : string * num * num) (cell : string * string * num)
  : string * num * num :=
  let '(peakDay, peakHour, maxMessages) := best in
  let '(day, hour, count) := cell in
  if numGt count maxMessages then (day, parseInt hour, count)
  else (peakDay, peakHour, maxMessages).

(** Sample inputs.  1704103200 is Monday 2024-01-01 10:00 UTC. *)
Definition senderless : Message :=
  mkMessage None None None None "1704160800".

(** The scenario of the specification: two messages of u1 (one with a
    photo) on Monday at 10, a sticker of u2 on Monday at 14, and a message
    without sender on Tuesday at 2. *)
Definition scenario : ChatData.t :=
  {| ChatData.messages :=
       [ mkMessage (Some "u1") (Some "Ann") (Some "photo.jpg") None "1704103200";
         mkMessage (Some "u1") (Some "Anna") None None "1704103260";
         mkMessage (Some "u2") None None (Some "sticker") "1704117600";
         senderless ] |}.

(** Three senders with one photo each. *)
Definition threePhotos : ChatData.t :=
  {| ChatData.messages :=
       [ mkMessage (Some "u1") None (Some "a.jpg") None "1704103200";
         mkMessage (Some "u2") None (Some "b.jpg") None "1704103200";
         mkMessage (Some "u3") None (Some "c.jpg") None "1704103200" ] |}.

(** A sender whose id is the name of a member of Object.prototype. *)
Definition inheritedId : ChatData.t :=
  {| ChatData.messages :=
       [ mkMessage (Some "constructor") (Some "Eve") None None "1704103200" ] |}.

(** What [analyzeChat] returns on [scenario]. *)
Definition u1Stats : Stats.UserStats :=
  {| Stats.messages := 2;
     Stats.media := {| Stats.photos := 1; Stats.videoMessages := 0;
                       Stats.videoFiles := 0; Stats.voice := 0;
                       Stats.stickers := 0 |} |}.

Definition u2Stats : Stats.UserStats :=
  {| Stats.messages := 1;
     Stats.media := {| Stats.photos := 0; Stats.videoMessages := 0;
                       Stats.videoFiles := 0; Stats.voice := 0;
                       Stats.stickers := 1 |} |}.

Definition mondayHistogram : TimeStats :=
  [("Monday", [("10", Int 2); ("14", Int 1)])].

Definition scenarioAnalysis : Analysis :=
  {| userStats := [("u1", u1Stats); ("u2", u2Stats)];
     userNames := [("u1", "Anna")];
     timeStats := mondayHistogram |}.

(** The grand total [main] passes on: [jsonData.messages.length]. *)
Definition totalMessages (jsonData : ChatData.t) : Z :=
  Z.of_nat (List.length (ChatData.messages jsonData)).

(** The per-user [totalPercentage] strings of one media kind. *)
Definition sharesOfTotal (k : Kind) (percentages : object Pct.t) : list string :=
  map (fun e => Pct.totalPercentage (kindShare k (snd e))) (entries percentages).

(* ===================================================================== *)
(** ** What the loop of [analyzeChat] maintains *)
(* ===================================================================== *)

(** What the loop maintains about [userStats]. *)
Record usInv (seen : list Message) (us : object Stats.UserStats) : Prop := {
  us_distinct : distinctKeys us;
  us_own : Forall (fun e => inherited (fst e) = false) us;
  us_bounds : Forall (fun e => 1 <= Stats.messages (snd e) /\ bounded (snd e)) us;
  us_messages :
    sumOver Stats.messages us =
    countIf (fun m => hasSender m && negb (builtinSender m)) seen;
  us_kinds :
    forall k, sumOver (kindCount k) us =
              countIf (fun m => hasSender m && hasKind k m) seen
}.

(** What the loop maintains about [timeStats]. *)
Record tsInv (seen : list Message) (ts : TimeStats) : Prop := {
  ts_histogram : histogram ts;
  ts_total : histZ ts = countIf hasSender seen
}.

(** What the loop maintains about [userNames]. *)
Definition unInv (seen : list Message) (un : object string) : Prop :=
  forall id,
    getOwn un id = if String.eqb id "__proto__" then None else lastName id seen.

(** All three together. *)
Record analysisInv (seen : list Message) (acc : Analysis) : Prop := {
  inv_us : usInv seen (userStats acc);
  inv_un : unInv seen (userNames acc);
  inv_ts : tsInv seen (timeStats acc)
}.

(** The start value of the scan of [findPeakTime], and its result as the
    record index.ts returns. *)
Definition initialBest : string * num * num := (""%string, Int (-1), Int 0).

Definition toPeak (best : string * num * num) : Index.Peak :=
  let '(day, hour, count) := best in
  {| Index.peakDay := day; Index.peakHour := hour; Index.maxMessages := count |}.

(* ===================================================================== *)
(** ** What [analyzeChat] stores, entry by entry *)
(* ===================================================================== *)

(** The record of counts of one sender over a message list. *)
Definition statsOf (id : string) (msgs : list Message) : Stats.UserStats :=
  let count k := countIf (fun m => sentBy id m && hasKind k m) msgs in
  {| Stats.messages := countIf (sentBy id) msgs;
     Stats.media :=
       {| Stats.photos := count Photos;
          Stats.videoMessages := count VideoMessages;
          Stats.videoFiles := count VideoFiles;
          Stats.voice := count Voice;
          Stats.stickers := count Stickers |} |}.

(** The message has a sender and falls into the cell [(day, key)]. *)
Definition inCell (host : Host) (day key : string) (m : Message) : bool :=
  hasSender m && String.eqb (dayOf host m) day
  && String.eqb (numKey (hourOf host m)) key.

(** [timeStats[day][key]], [None] when the day or the cell is absent. *)
Definition cellAt (ts : TimeStats) (day key : string) : option num :=
  getOwn (hoursOf ts day) key.

Definition weekdayNames : list string :=
  [ "Sunday"; "Monday"; "Tuesday"; "Wednesday"; "Thursday"; "Friday";
    "Saturday" ].

(** What the loop maintains about each entry of [userStats]. *)
Definition perUser (seen : list Message) (us : object Stats.UserStats) : Prop :=
  forall id,
    getOwn us id =
    if inherited id || (countIf (sentBy id) seen =? 0) then None
    else Some (statsOf id seen).

(** What the loop maintains about each cell of [timeStats]. *)
Definition perCell (host : Host) (seen : list Message) (ts : TimeStats) : Prop :=
  forall day key,
    cellAt ts day key =
    if countIf (inCell host day key) seen =? 0 then None
    else Some (Int (countIf (inCell host day key) seen)).

(** What [findPeakTime] starts from, and returns when no cell beats it. *)
Definition sentinel : Index.Peak :=
  {| Index.peakDay := ""; Index.peakHour := Int (-1); Index.maxMessages := Int 0 |}.

(** No cell holds a count above [m] (a NaN cell never does). *)
Definition noneAbove (m : Z) (l : list (string * string * num)) : Prop :=
  Forall (fun c => numGt (snd c) (Int m) = false) l.

(** Hour 14 recorded before hour 9, with the same count. *)
Definition tiedHistogram : TimeStats :=
  [("Monday", [("14", Int 2); ("9", Int 2)])].

(** A terminal without styling. *)
Definition plainPicocolors : Picocolors.t :=
  {| Picocolors.bold := fun s => s; Picocolors.underline := fun s => s;
     Picocolors.green := fun s => s; Picocolors.blue := fun s => s;
     Picocolors.cyan := fun s => s; Picocolors.gray := fun s => s;
     Picocolors.yellow := fun s => s |}.

Definition plainChalk : Chalk.t :=
  {| Chalk.boldUnderline := fun s => s; Chalk.bold := fun s => s;
     Chalk.green := fun s => s; Chalk.blue := fun s => s;
     Chalk.cyan := fun s => s; Chalk.gray := fun s => s;
     Chalk.yellow := fun s => s |}.

Definition noMemberText : string -> string := fun _ => ""%string.

(** The name a block shows for a sender: the last non-empty one it
    supplied, or the placeholder. *)
Definition shownName (id : string) (msgs : list Message) : string :=
  match lastName id msgs with
  | Some name => name
  | None => "Unknown"
  end.

(* ===================================================================== *)
(** ** Facts about objects *)
(* ===================================================================== *)

Section ObjectFacts.
Context {V : Type}.
Implicit Types (o : object V) (k : string) (v : V).

Lemma getOwn_defineOwn_same o k v : getOwn (defineOwn o k v) k = Some v.
Proof.
  induction o as [|[k' v'] o IH]; simpl.
  - now rewrite String.eqb_refl.
  - destruct (String.eqb k' k) eqn:E; simpl; rewrite E; auto.
Qed.

Lemma getOwn_defineOwn_other o k k' v :
  k <> k' -> getOwn (defineOwn o k v) k' = getOwn o k'.
Proof.
  intros Hne. induction o as [|[k0 v0] o IH]; simpl.
  - destruct (String.eqb_spec k k'); congruence.
  - destruct (String.eqb_spec k0 k) as [->|Hk]; simpl.
    + destruct (String.eqb_spec k k'); congruence.
    + now rewrite IH.
Qed.

Lemma defineOwn_twice o k v w :
  defineOwn (defineOwn o k v) k w = defineOwn o k w.
Proof.
  induction o as [|[k' v'] o IH]; simpl.
  - now rewrite String.eqb_refl.
  - destruct (String.eqb k' k) eqn:E; simpl; rewrite E; congruence.
Qed.

Lemma getOwn_In o k v : getOwn o k = Some v -> In (k, v) o.
Proof.
  induction o as [|[k' v'] o IH]; simpl; [discriminate|].
  destruct (String.eqb_spec k' k) as [->|Hk]; intros H.
  - left. congruence.
  - right. auto.
Qed.

Lemma getOwn_None o k : getOwn o k = None <-> ~ In k (map fst o).
Proof.
  induction o as [|[k' v'] o IH]; simpl; [tauto|].
  destruct (String.eqb_spec k' k) as [->|Hk].
  - split; [discriminate | tauto].
  - rewrite IH. tauto.
Qed.

Lemma In_getOwn o k v : distinctKeys o -> In (k, v) o -> getOwn o k = Some v.
Proof.
  unfold distinctKeys.
  induction o as [|[k' v'] o IH]; simpl; [tauto|].
  intros Hnd [Heq|Hin]; inversion Hnd as [|? ? Hnotin Hnd']; subst.
  - inversion Heq; subst. now rewrite String.eqb_refl.
  - destruct (String.eqb_spec k' k) as [->|Hk]; auto.
    exfalso. apply Hnotin. now apply (in_map fst) in Hin.
Qed.

Lemma keys_defineOwn o k v :
  map fst (defineOwn o k v) =
  match getOwn o k with
  | Some _ => map fst o
  | None => map fst o ++ [k]
  end.
Proof.
  induction o as [|[k' v'] o IH]; simpl; [reflexivity|].
  destruct (String.eqb_spec k' k) as [->|Hk]; simpl; [reflexivity|].
  rewrite IH. now destruct (getOwn o k).
Qed.

Lemma distinctKeys_defineOwn o k v :
  distinctKeys o -> distinctKeys (defineOwn o k v).
Proof.
  unfold distinctKeys. intros Hnd. rewrite keys_defineOwn.
  destruct (getOwn o k) eqn:E; [assumption|].
  apply getOwn_None in E.
  apply NoDup_rev in Hnd. rewrite <- rev_involutive.
  apply NoDup_rev. rewrite rev_app_distr. simpl.
  constructor; [|assumption]. now rewrite <- in_rev.
Qed.

Lemma In_defineOwn o k v e :
  In e (defineOwn o k v) -> e = (k, v) \/ In e o.
Proof.
  induction o as [|[k' v'] o IH]; simpl.
  - intros [<-|[]]. now left.
  - destruct (String.eqb_spec k' k) as [->|Hk]; simpl.
    + intros [<-|H]; auto.
    + intros [<-|H]; auto. destruct (IH H); auto.
Qed.

Lemma Forall_defineOwn (P : string * V -> Prop) o k v :
  Forall P o -> P (k, v) -> Forall P (defineOwn o k v).
Proof.
  rewrite !Forall_forall. intros Ho Hv e He.
  destruct (In_defineOwn _ _ _ _ He) as [->|Hin]; auto.
Qed.

Lemma sumOver_defineOwn (f : V -> Z) o k v :
  sumOver f (defineOwn o k v) =
  sumOver f o - match getOwn o k with Some w => f w | None => 0 end + f v.
Proof.
  induction o as [|[k' v'] o IH]; simpl; [lia|].
  destruct (String.eqb_spec k' k) as [->|Hk]; simpl; [lia|].
  rewrite IH. lia.
Qed.

Lemma put_cases o k v :
  put o k v = defineOwn o k v \/
  (put o k v = o /\ getOwn o k = None /\ k = "__proto__"%string).
Proof.
  unfold put. destruct (getOwn o k); [now left|].
  destruct (String.eqb_spec k "__proto__"); [right|left]; auto.
Qed.

Lemma put_own o k v w : getOwn o k = Some w -> put o k v = defineOwn o k v.
Proof. unfold put. now intros ->. Qed.

Lemma put_fresh o k v : inherited k = false -> put o k v = defineOwn o k v.
Proof.
  unfold put. intros Hk. destruct (getOwn o k); [reflexivity|].
  destruct (String.eqb_spec k "__proto__") as [->|]; [discriminate|reflexivity].
Qed.

Lemma put_twice o k v w : put (put o k v) k w = put o k w.
Proof.
  unfold put at 2 3. destruct (getOwn o k) eqn:E.
  - unfold put. rewrite getOwn_defineOwn_same. apply defineOwn_twice.
  - destruct (String.eqb_spec k "__proto__") as [->|Hk].
    + unfold put. rewrite E. reflexivity.
    + unfold put. rewrite getOwn_defineOwn_same. apply defineOwn_twice.
Qed.

Lemma distinctKeys_put o k v : distinctKeys o -> distinctKeys (put o k v).
Proof.
  intros H. destruct (put_cases o k v) as [->|(-> & _)]; auto.
  now apply distinctKeys_defineOwn.
Qed.

Lemma Forall_put (P : string * V -> Prop) o k v :
  Forall P o -> P (k, v) -> Forall P (put o k v).
Proof.
  intros Ho Hv. destruct (put_cases o k v) as [->|(-> & _)]; auto.
  now apply Forall_defineOwn.
Qed.

Lemma get_Own o k v : get o k = Own v <-> getOwn o k = Some v.
Proof.
  unfold get. destruct (getOwn o k); [|destruct (inherited k)];
    split; congruence.
Qed.

Lemma get_Undefined o k :
  get o k = Undefined <-> getOwn o k = None /\ inherited k = false.
Proof.
  unfold get. destruct (getOwn o k); [|destruct (inherited k)];
    intuition congruence.
Qed.

Lemma get_Inherited o k :
  get o k = Inherited <-> getOwn o k = None /\ inherited k = true.
Proof.
  unfold get. destruct (getOwn o k); [|destruct (inherited k)];
    intuition congruence.
Qed.

(** [Object.entries] lists exactly the own properties. *)
Lemma insertIndexed_perm (i : N) (e : string * V) l :
  Permutation (insertIndexed i e l) ((i, e) :: l).
Proof.
  induction l as [|[j e'] l IH]; simpl; [reflexivity|].
  destruct (i <? j)%N; [reflexivity|].
  rewrite IH. apply perm_swap.
Qed.

Lemma entries_perm o : Permutation (entries o) o.
Proof.
  unfold entries. induction o as [|e o IH]; simpl; [reflexivity|].
  destruct (arrayIndex (fst e)) eqn:E; simpl.
  - rewrite insertIndexed_perm. simpl. now constructor.
  - rewrite <- Permutation_middle. now constructor.
Qed.

Lemma In_entries o e : In e (entries o) <-> In e o.
Proof.
  split; apply Permutation_in; [|symmetry]; apply entries_perm.
Qed.

Lemma Forall_entries (P : string * V -> Prop) o :
  Forall P (entries o) <-> Forall P o.
Proof. rewrite !Forall_forall. now setoid_rewrite In_entries. Qed.

Lemma length_entries o : List.length (entries o) = List.length o.
Proof. apply Permutation_length, entries_perm. Qed.

Lemma sumOver_perm (f : V -> Z) (l l' : list (string * V)) :
  Permutation l l' -> sumOver f l = sumOver f l'.
Proof. induction 1; simpl; lia. Qed.

Lemma sumOver_entries (f : V -> Z) o : sumOver f (entries o) = sumOver f o.
Proof. apply sumOver_perm, entries_perm. Qed.

Lemma distinctKeys_entries o : distinctKeys o -> NoDup (keys o).
Proof.
  unfold distinctKeys, keys. intros H.
  eapply Permutation_NoDup; [|exact H].
  symmetry. apply Permutation_map, entries_perm.
Qed.

End ObjectFacts.

(* ===================================================================== *)
(** ** The callback, strand by strand *)
(* ===================================================================== *)

Ltac step_bind :=
  match goal with
  | |- context [bind ?c _] =>
      let us := fresh "us" in
      destruct c as [us|]; simpl; [|reflexivity]
  end.

Lemma Index_forEachBody_strands host acc m :
  Index.forEachBody host acc m = strands recordCellIndex host acc m.
Proof.
  unfold Index.forEachBody, strands, tallyUser, recordName, dayOf, hourOf,
    recordCellIndex.
  destruct (from_id m) as [id|]; [|reflexivity].
  destruct (negb (truthy (Some id))); [reflexivity|].
  cbv zeta. do 6 step_bind. reflexivity.
Qed.

Lemma Chat_forEachBody_strands host acc m :
  Chat.forEachBody host acc m = strands recordCellChat host acc m.
Proof.
  unfold Chat.forEachBody, strands, tallyUser, recordName, dayOf, hourOf,
    recordCellChat.
  destruct (from_id m) as [id|]; [|reflexivity].
  destruct (negb (truthy (Some id))); [reflexivity|].
  cbv zeta. do 6 step_bind.
  destruct (get _ _); simpl; reflexivity.
Qed.

(** The two ways of bumping a cell write the same histogram. *)
Lemma recordCell_same day hour ts :
  recordCellChat day hour ts = recordCellIndex day hour ts.
Proof.
  unfold recordCellChat, recordCellIndex. cbv zeta.
  set (ts1 := match get ts day with Undefined => put ts day [] | _ => ts end).
  destruct (get ts1 day) as [hours| |] eqn:Hday; simpl; try reflexivity.
  - apply get_Own in Hday.
    destruct (getOwn hours (numKey hour)) as [c|] eqn:Hc; simpl.
    + destruct (numTruthy c) eqn:Ht.
      * rewrite (proj2 (get_Own _ _ _) Hday), Hc. reflexivity.
      * rewrite (put_own ts1 day _ hours Hday).
        unfold get. rewrite getOwn_defineOwn_same.
        rewrite (put_own hours _ _ c Hc), getOwn_defineOwn_same. simpl.
        rewrite <- (put_own ts1 day _ hours Hday), put_twice.
        rewrite <- (put_own hours _ (Int 0) c Hc), put_twice.
        destruct c as [z|]; simpl in *; [|reflexivity].
        destruct (Z.eqb_spec z 0); [subst; reflexivity|discriminate].
    + rewrite (put_own ts1 day _ hours Hday).
      unfold get. rewrite getOwn_defineOwn_same.
      rewrite <- (put_own ts1 day _ hours Hday), put_twice.
      destruct (put_cases hours (numKey hour) (Int 0)) as [E|(E & _ & Hk)].
      * rewrite E, getOwn_defineOwn_same. simpl.
        rewrite <- E, put_twice. reflexivity.
      * rewrite E, Hc. simpl. unfold put at 2 4. rewrite Hc, Hk. reflexivity.
  - rewrite Hday. reflexivity.
Qed.

Lemma Chat_forEachBody_same host acc m :
  Chat.forEachBody host acc m = Index.forEachBody host acc m.
Proof.
  rewrite Chat_forEachBody_strands, Index_forEachBody_strands.
  unfold strands. destruct (from_id m) as [id|]; [|reflexivity].
  destruct (negb (truthy (Some id))); [reflexivity|].
  destruct (tallyUser m id (userStats acc)); simpl; [|reflexivity].
  now rewrite recordCell_same.
Qed.

Lemma forEach_ext {S M} (f g : S -> M -> completion S) msgs s :
  (forall s m, f s m = g s m) -> forEach f msgs s = forEach g msgs s.
Proof.
  intros H. revert s. induction msgs as [|m msgs IH]; intros s; simpl.
  - reflexivity.
  - rewrite H. destruct (g s m); simpl; auto.
Qed.

Lemma forEach_snoc {S M} (f : S -> M -> completion S) msgs m s :
  forEach f (msgs ++ [m]) s = (s' <- forEach f msgs s ;; f s' m).
Proof.
  revert s. induction msgs as [|m' msgs IH]; intros s; simpl.
  - destruct (f s m); reflexivity.
  - destruct (f s m'); simpl; auto.
Qed.

(** A property of the messages seen so far and the state reached, carried
    along the loop. *)
Lemma forEach_prefix {S M} (f : S -> M -> completion S)
    (Q : list M -> S -> Prop) s0 :
  Q [] s0 ->
  (forall seen m s s', Q seen s -> f s m = Normal s' -> Q (seen ++ [m]) s') ->
  forall msgs r, forEach f msgs s0 = Normal r -> Q msgs r.
Proof.
  intros H0 Hstep msgs. induction msgs as [|m msgs IH] using rev_ind; intros r.
  - simpl. intros [= <-]. exact H0.
  - rewrite forEach_snoc. destruct (forEach f msgs s0) as [s|] eqn:E; simpl.
    + intros Hm. eapply Hstep; eauto.
    + discriminate.
Qed.

Lemma strands_Normal rc host acc m acc' :
  strands rc host acc m = Normal acc' ->
  (hasSender m = false /\ acc' = acc) \/
  (exists id, from_id m = Some id /\ hasSender m = true /\
     tallyUser m id (userStats acc) = Normal (userStats acc') /\
     userNames acc' = recordName m id (userNames acc) /\
     rc (dayOf host m) (hourOf host m) (timeStats acc) = Normal (timeStats acc')).
Proof.
  unfold strands, hasSender. destruct (from_id m) as [id|].
  - destruct (truthy (Some id)) eqn:Ht; simpl.
    + destruct (tallyUser m id (userStats acc)) as [us|] eqn:Hus; simpl;
        [|discriminate].
      destruct (rc _ _ _) as [ts|] eqn:Hts; simpl; [|discriminate].
      intros [= <-]. right. exists id. simpl. repeat split; auto.
    + intros [= <-]. now left.
  - intros [= <-]. now left.
Qed.

Lemma countIf_snoc {A} (p : A -> bool) l x :
  countIf p (l ++ [x]) = countIf p l + (if p x then 1 else 0).
Proof.
  unfold countIf. rewrite filter_app, length_app. simpl.
  destruct (p x); simpl; lia.
Qed.

(* --------------------------------------------------------------------- *)
(** *** userStats *)

Lemma when_bumpMedia c inc us id st :
  when c (fun us => bumpMedia inc us id) (defineOwn us id st) =
  Normal (defineOwn us id (if c then Stats.withMedia inc st else st)).
Proof.
  destruct c; simpl; [|reflexivity].
  unfold bumpMedia, get. rewrite getOwn_defineOwn_same.
  now rewrite defineOwn_twice.
Qed.

Lemma when_bumpMedia_builtin c inc (us : object Stats.UserStats) id :
  get us id = Inherited ->
  when c (fun us => bumpMedia inc us id) us =
  if c then Throw TypeError else Normal us.
Proof. intros H. destruct c; simpl; [|reflexivity]. unfold bumpMedia. now rewrite H. Qed.

(** A sender whose id names no inherited member gets its own entry, which
    the message advances by [tally]. *)
Lemma tallyUser_own m id us :
  inherited id = false ->
  tallyUser m id us =
  Normal (defineOwn us id
            (tally m (match getOwn us id with Some st => st | None => Stats.fresh end))).
Proof.
  intros Hid. unfold tallyUser, tally. cbv zeta.
  generalize (truthy (photo m)) (strictEq (media_type m) "video_message")
    (strictEq (media_type m) "video_file")
    (strictEq (media_type m) "voice_message")
    (strictEq (media_type m) "sticker").
  intros b1 b2 b3 b4 b5.
  destruct (getOwn us id) as [st|] eqn:E.
  - rewrite (proj2 (get_Own _ _ _) E).
    unfold bumpMessages. rewrite (proj2 (get_Own _ _ _) E).
    do 5 (unfold bind at 1; cbv beta iota; rewrite when_bumpMedia).
    reflexivity.
  - rewrite (proj2 (get_Undefined _ _) (conj E Hid)).
    rewrite put_fresh by assumption.
    unfold bumpMessages, get. rewrite getOwn_defineOwn_same, defineOwn_twice.
    do 5 (unfold bind at 1; cbv beta iota; rewrite when_bumpMedia).
    reflexivity.
Qed.

(** A sender whose id names an inherited member gets no entry: the message
    counter of the built-in goes up, and a media counter of it cannot. *)
Lemma tallyUser_builtin m id us :
  inherited id = true -> getOwn us id = None ->
  tallyUser m id us = if anyKind m then Throw TypeError else Normal us.
Proof.
  intros Hid E. assert (G : get us id = Inherited) by now apply get_Inherited.
  unfold tallyUser, anyKind. cbv zeta. rewrite G.
  unfold bumpMessages. rewrite G.
  generalize (truthy (photo m)) (strictEq (media_type m) "video_message")
    (strictEq (media_type m) "video_file")
    (strictEq (media_type m) "voice_message")
    (strictEq (media_type m) "sticker").
  intros b1 b2 b3 b4 b5.
  unfold bind at 1; cbv beta iota.
  rewrite when_bumpMedia_builtin by exact G. destruct b1; [reflexivity|].
  unfold bind at 1; cbv beta iota.
  rewrite when_bumpMedia_builtin by exact G. destruct b2; [reflexivity|].
  unfold bind at 1; cbv beta iota.
  rewrite when_bumpMedia_builtin by exact G. destruct b3; [reflexivity|].
  unfold bind at 1; cbv beta iota.
  rewrite when_bumpMedia_builtin by exact G. destruct b4; [reflexivity|].
  unfold bind at 1; cbv beta iota.
  rewrite when_bumpMedia_builtin by exact G. destruct b5; reflexivity.
Qed.

Lemma messages_tally m st : Stats.messages (tally m st) = Stats.messages st + 1.
Proof.
  unfold tally. cbv zeta.
  repeat match goal with |- context [if ?c then _ else _] => destruct c end;
    reflexivity.
Qed.

Lemma kindCount_tally k m st :
  kindCount k (tally m st) = kindCount k st + (if hasKind k m then 1 else 0).
Proof.
  unfold tally. cbv zeta. destruct k; simpl;
    destruct (truthy (photo m));
    destruct (strictEq (media_type m) "video_message");
    destruct (strictEq (media_type m) "video_file");
    destruct (strictEq (media_type m) "voice_message");
    destruct (strictEq (media_type m) "sticker"); simpl; lia.
Qed.

Lemma anyKind_false m k : anyKind m = false -> hasKind k m = false.
Proof.
  unfold anyKind. rewrite !orb_false_iff. destruct k; simpl; tauto.
Qed.

Lemma usInv_nil : usInv [] [].
Proof.
  constructor; try constructor; reflexivity.
Qed.

Lemma usInv_skip seen m us :
  hasSender m = false -> usInv seen us -> usInv (seen ++ [m]) us.
Proof.
  intros Hs []. constructor; auto.
  - rewrite countIf_snoc, Hs. simpl. lia.
  - intros k. rewrite countIf_snoc, Hs. simpl. rewrite us_kinds0. lia.
Qed.

Lemma usInv_tally seen m id us us' :
  from_id m = Some id -> hasSender m = true ->
  usInv seen us -> tallyUser m id us = Normal us' -> usInv (seen ++ [m]) us'.
Proof.
  intros Hid Hs Inv Ht. destruct Inv.
  assert (Hb : builtinSender m = inherited id)
    by (unfold builtinSender; now rewrite Hid).
  destruct (inherited id) eqn:Hin.
  - (* a built-in name: no entry *)
    assert (E : getOwn us id = None).
    { destruct (getOwn us id) as [st|] eqn:E; [|reflexivity].
      apply getOwn_In in E. rewrite Forall_forall in us_own0.
      apply us_own0 in E. simpl in E. congruence. }
    rewrite tallyUser_builtin in Ht by assumption.
    destruct (anyKind m) eqn:Hk; [discriminate|]. injection Ht as <-.
    constructor; auto.
    + rewrite countIf_snoc, Hb, Hs. simpl. lia.
    + intros k. rewrite countIf_snoc, (anyKind_false _ k Hk), Hs. simpl.
      rewrite us_kinds0. lia.
  - rewrite tallyUser_own in Ht by assumption. injection Ht as <-.
    set (st0 := match getOwn us id with Some st => st | None => Stats.fresh end).
    assert (B0 : 0 <= Stats.messages st0 /\ bounded st0).
    { unfold st0. destruct (getOwn us id) as [st|] eqn:E.
      - apply getOwn_In in E. rewrite Forall_forall in us_bounds0.
        apply us_bounds0 in E. simpl in E. intuition lia.
      - split; [simpl; lia|]. intros []; simpl; lia. }
    constructor.
    + now apply distinctKeys_defineOwn.
    + now apply Forall_defineOwn.
    + apply Forall_defineOwn; [assumption|]. simpl.
      rewrite messages_tally. split; [lia|].
      intros k. rewrite kindCount_tally, messages_tally.
      destruct B0 as [_ B0]. specialize (B0 k). destruct (hasKind k m); lia.
    + rewrite sumOver_defineOwn, messages_tally, countIf_snoc, Hb, Hs. simpl.
      rewrite <- us_messages0. unfold st0.
      destruct (getOwn us id); simpl; lia.
    + intros k. rewrite sumOver_defineOwn, kindCount_tally, countIf_snoc, Hs.
      simpl. rewrite <- us_kinds0. unfold st0.
      destruct (getOwn us id); destruct k; simpl; lia.
Qed.

(* --------------------------------------------------------------------- *)
(** *** timeStats *)

(** A weekday name, ["Invalid Date"] and the key of an hour never name a
    member inherited from Object.prototype. *)
Lemma weekdayLong_own w : inherited (weekdayLong w) = false.
Proof.
  unfold weekdayLong.
  repeat match goal with
         | |- context [match ?x with _ => _ end] => destruct x
         end; reflexivity.
Qed.

Lemma dayOf_own host m : inherited (dayOf host m) = false.
Proof.
  unfold dayOf, toLocaleWeekday.
  destruct (newDate _); [apply weekdayLong_own | reflexivity].
Qed.

Lemma numKey_own n : inherited (numKey n) = false.
Proof.
  destruct n as [z|]; [|reflexivity].
  unfold numKey. destruct (Z.to_int z) as [d|d]; destruct d; reflexivity.
Qed.

Lemma defineOwn_nonempty {V} (o : object V) k v : defineOwn o k v <> [].
Proof.
  destruct o as [|[k' v'] o]; simpl; [discriminate|].
  destruct (String.eqb k' k); discriminate.
Qed.

Lemma recordCellIndex_own day hour ts :
  inherited day = false ->
  recordCellIndex day hour ts =
  Normal (defineOwn ts day
            (defineOwn (hoursOf ts day) (numKey hour)
               (numAdd (orZero (getOwn (hoursOf ts day) (numKey hour))) (Int 1)))).
Proof.
  intros Hday. unfold recordCellIndex, hoursOf. cbv zeta.
  destruct (getOwn ts day) as [hours|] eqn:E.
  - rewrite (proj2 (get_Own _ _ _) E). cbv iota.
    rewrite (proj2 (get_Own _ _ _) E).
    rewrite (put_own ts day _ hours E).
    now rewrite (put_fresh hours _ _ (numKey_own hour)).
  - rewrite (proj2 (get_Undefined _ _) (conj E Hday)). cbv iota.
    rewrite (put_fresh ts day _ Hday).
    unfold get at 1. rewrite getOwn_defineOwn_same.
    rewrite (put_fresh _ day _ Hday), defineOwn_twice.
    now rewrite (put_fresh [] _ _ (numKey_own hour)).
Qed.

Lemma histogram_nil : histogram [].
Proof. split; constructor. Qed.

Lemma histogram_day ts day hours :
  histogram ts -> getOwn ts day = Some hours ->
  distinctKeys hours /\ hours <> [] /\ Forall (fun c => positiveCell (snd c)) hours.
Proof.
  intros [_ H] E. apply getOwn_In in E. rewrite Forall_forall in H.
  apply (H _ E).
Qed.

Lemma hoursZ_defineOwn hours k c :
  hoursZ (defineOwn hours k c) =
  hoursZ hours - match getOwn hours k with Some w => cellZ w | None => 0 end
  + cellZ c.
Proof. apply sumOver_defineOwn. Qed.

Lemma histZ_defineOwn ts day hours :
  histZ (defineOwn ts day hours) =
  histZ ts - match getOwn ts day with Some w => hoursZ w | None => 0 end
  + hoursZ hours.
Proof. apply sumOver_defineOwn. Qed.

Lemma tsInv_nil : tsInv [] [].
Proof. split; [apply histogram_nil | reflexivity]. Qed.

Lemma tsInv_skip seen m ts :
  hasSender m = false -> tsInv seen ts -> tsInv (seen ++ [m]) ts.
Proof.
  intros Hs []. split; auto. rewrite countIf_snoc, Hs. simpl. lia.
Qed.

Lemma tsInv_record host seen m ts ts' :
  hasSender m = true -> tsInv seen ts ->
  recordCellIndex (dayOf host m) (hourOf host m) ts = Normal ts' ->
  tsInv (seen ++ [m]) ts'.
Proof.
  intros Hs [Hh Ht] Hr.
  rewrite (recordCellIndex_own _ _ _ (dayOf_own host m)) in Hr.
  injection Hr as <-.
  set (day := dayOf host m) in *. set (key := numKey (hourOf host m)) in *.
  assert (Hd : distinctKeys (hoursOf ts day) /\
               Forall (fun c => positiveCell (snd c)) (hoursOf ts day)).
  { unfold hoursOf. destruct (getOwn ts day) as [hours|] eqn:E.
    - destruct (histogram_day _ _ _ Hh E) as (? & _ & ?). auto.
    - split; constructor. }
  assert (Hc : exists z, 0 <= z /\
             cellZ (match getOwn (hoursOf ts day) key with Some c => c | None => NaN end) = z /\
             orZero (getOwn (hoursOf ts day) key) = Int z).
  { destruct (getOwn (hoursOf ts day) key) as [c|] eqn:Ec.
    - destruct Hd as [_ Hd]. apply getOwn_In in Ec.
      rewrite Forall_forall in Hd. destruct (Hd _ Ec) as (z & Hz & Hpos).
      simpl in Hz. subst c. exists z. simpl.
      destruct (Z.eqb_spec z 0); [lia|]. simpl. repeat split; auto; lia.
    - exists 0. simpl. repeat split; auto; lia. }
  destruct Hc as (z & Hz0 & Hz & Ho). rewrite Ho. simpl.
  split.
  - destruct Hh as [Hk Hall]. destruct Hd as [Hd1 Hd2]. split.
    + now apply distinctKeys_defineOwn.
    + apply Forall_defineOwn; [assumption|]. simpl. repeat split.
      * now apply distinctKeys_defineOwn.
      * apply defineOwn_nonempty.
      * apply Forall_defineOwn; [assumption|]. exists (z + 1). split; [reflexivity|lia].
  - rewrite countIf_snoc, Hs, <- Ht.
    rewrite histZ_defineOwn, hoursZ_defineOwn. simpl.
    replace (match getOwn ts day with Some w => hoursZ w | None => 0 end)
      with (hoursZ (hoursOf ts day))
      by (unfold hoursOf; destruct (getOwn ts day); reflexivity).
    replace (match getOwn (hoursOf ts day) key with Some w => cellZ w | None => 0 end)
      with z by (rewrite <- Hz; destruct (getOwn (hoursOf ts day) key); reflexivity).
    lia.
Qed.

(** On a histogram the sum of the cells, as Numbers, is the integer sum. *)
Lemma numSum_Int {V} (g : V -> num) (gz : V -> Z) (l : list (string * V)) :
  Forall (fun e => g (snd e) = Int (gz (snd e))) l ->
  fold_right (fun e acc => numAdd (g (snd e)) acc) (Int 0) l = Int (sumOver gz l).
Proof.
  induction 1 as [|e l He _ IH]; simpl; [reflexivity|].
  now rewrite IH, He.
Qed.

Lemma positiveCell_Int c : positiveCell c -> c = Int (cellZ c).
Proof. intros (z & -> & _). reflexivity. Qed.

Lemma hoursTotal_Int hours :
  Forall (fun c => positiveCell (snd c)) hours -> hoursTotal hours = Int (hoursZ hours).
Proof.
  intros H. unfold hoursTotal, hoursZ.
  rewrite (numSum_Int (fun c => c) cellZ), sumOver_entries; [reflexivity|].
  apply Forall_entries. eapply Forall_impl; [|exact H].
  intros e. apply positiveCell_Int.
Qed.

Lemma cellTotal_Int ts : histogram ts -> cellTotal ts = Int (histZ ts).
Proof.
  intros [_ H]. unfold cellTotal, histZ.
  rewrite (numSum_Int hoursTotal hoursZ), sumOver_entries; [reflexivity|].
  apply Forall_entries. eapply Forall_impl; [|exact H].
  intros e (_ & _ & He). now apply hoursTotal_Int.
Qed.

(* --------------------------------------------------------------------- *)
(** *** userNames *)

Lemma namesOf_snoc id seen m :
  namesOf id (seen ++ [m]) = namesOf id seen ++ namesOf id [m].
Proof. unfold namesOf. now rewrite flat_map_app. Qed.

Lemma lastName_snoc id seen m :
  lastName id (seen ++ [m]) =
  match namesOf id [m] with
  | [] => lastName id seen
  | name :: _ => Some name
  end.
Proof.
  unfold lastName. rewrite namesOf_snoc.
  assert (H : namesOf id [m] = [] \/ exists name, namesOf id [m] = [name]).
  { unfold namesOf. cbn [flat_map]. rewrite app_nil_r.
    destruct (sentBy id m); [|now left].
    destruct (from m) as [name|]; [|now left].
    destruct (truthy (Some name)); [right; now exists name|now left]. }
  destruct H as [->|(name & ->)].
  - now rewrite app_nil_r.
  - rewrite map_app. simpl. apply last_last.
Qed.

Lemma getOwn_put_other {V} (o : object V) k k' v :
  k <> k' -> getOwn (put o k v) k' = getOwn o k'.
Proof.
  intros Hne. destruct (put_cases o k v) as [->|(-> & _)]; [|reflexivity].
  now apply getOwn_defineOwn_other.
Qed.

Lemma unInv_nil : unInv [] [].
Proof. intros id. simpl. now destruct (String.eqb id "__proto__"). Qed.

Lemma getOwn_put_same {V} (o : object V) k v :
  k <> "__proto__"%string -> getOwn (put o k v) k = Some v.
Proof.
  intros Hk. destruct (put_cases o k v) as [->|(_ & _ & ->)]; [|congruence].
  apply getOwn_defineOwn_same.
Qed.

Lemma namesOf_one id m :
  namesOf id [m] =
  if sentBy id m then
    match from m with
    | Some name => if truthy (Some name) then [name] else []
    | None => []
    end
  else [].
Proof. unfold namesOf. cbn [flat_map]. now rewrite app_nil_r. Qed.

Lemma unInv_skip seen m un :
  hasSender m = false -> unInv seen un -> unInv (seen ++ [m]) un.
Proof.
  intros Hs Inv id. rewrite Inv, lastName_snoc, namesOf_one.
  replace (sentBy id m) with false; [reflexivity|].
  unfold sentBy. unfold hasSender in Hs.
  destruct (from_id m) as [i|]; [|reflexivity].
  rewrite Hs. now rewrite andb_false_r.
Qed.

Lemma unInv_record seen m id un :
  from_id m = Some id -> hasSender m = true ->
  unInv seen un -> unInv (seen ++ [m]) (recordName m id un).
Proof.
  intros Hid Hs Inv id'. rewrite lastName_snoc, namesOf_one.
  assert (Hsent : sentBy id' m = String.eqb id id').
  { unfold sentBy. unfold hasSender in Hs. rewrite Hid in *. rewrite Hs.
    apply andb_true_r. }
  unfold recordName. rewrite Hsent.
  destruct (from m) as [name|].
  - destruct (truthy (Some name)) eqn:Hn.
    + destruct (String.eqb_spec id id') as [Heq|Hne].
      * subst id'. destruct (String.eqb_spec id "__proto__") as [Hp|Hp].
        -- subst id. specialize (Inv "__proto__"%string). simpl in Inv.
           unfold put. now rewrite Inv.
        -- now apply getOwn_put_same.
      * rewrite getOwn_put_other by assumption. apply Inv.
    + destruct (String.eqb id id'); apply Inv.
  - destruct (String.eqb id id'); apply Inv.
Qed.

(* --------------------------------------------------------------------- *)
(** *** The whole loop *)

Lemma analysisInv_step host seen m s s' :
  analysisInv seen s -> Index.forEachBody host s m = Normal s' ->
  analysisInv (seen ++ [m]) s'.
Proof.
  intros [Hus Hun Hts] Hstep.
  rewrite Index_forEachBody_strands in Hstep.
  apply strands_Normal in Hstep.
  destruct Hstep as [(Hs & ->)|(id & Hid & Hs & Ht & Hn & Hc)].
  - split; [now apply usInv_skip | now apply unInv_skip | now apply tsInv_skip].
  - split.
    + eapply usInv_tally; eauto.
    + rewrite Hn. now apply unInv_record.
    + eapply (tsInv_record host); eauto.
Qed.

Lemma Index_analyzeChat_inv host jsonData r :
  Index.analyzeChat host jsonData = Normal r ->
  analysisInv (ChatData.messages jsonData) r.
Proof.
  unfold Index.analyzeChat.
  apply (forEach_prefix (Index.forEachBody host) analysisInv).
  - split; [apply usInv_nil | apply unInv_nil | apply tsInv_nil].
  - intros seen m s s'. apply analysisInv_step.
Qed.

Lemma Chat_analyzeChat_same host jsonData :
  Chat.analyzeChat host jsonData = Index.analyzeChat host jsonData.
Proof.
  unfold Chat.analyzeChat, Index.analyzeChat.
  apply forEach_ext. intros s m. apply Chat_forEachBody_same.
Qed.

Lemma analyzeChat_inv host jsonData r :
  Index.analyzeChat host jsonData = Normal r \/
  Chat.analyzeChat host jsonData = Normal r ->
  analysisInv (ChatData.messages jsonData) r.
Proof.
  rewrite Chat_analyzeChat_same. intros [H|H]; now apply (Index_analyzeChat_inv host).
Qed.

(** The loop throws only on a message whose sender id names a member
    inherited from Object.prototype and which matches a media test. *)
Lemma forEach_returns host msgs acc seen :
  analysisInv seen acc ->
  Forall (fun m => hasSender m && builtinSender m && anyKind m = false) msgs ->
  exists r, forEach (Index.forEachBody host) msgs acc = Normal r.
Proof.
  intros Inv H. revert seen acc Inv.
  induction H as [|m msgs Hm _ IH]; intros seen acc Inv; simpl.
  - now exists acc.
  - assert (Hstep : exists acc', Index.forEachBody host acc m = Normal acc').
    { rewrite Index_forEachBody_strands. unfold strands.
      destruct (from_id m) as [id|] eqn:Hid; [|now exists acc].
      destruct (truthy (Some id)) eqn:Ht; simpl; [|now exists acc].
      rewrite (recordCellIndex_own _ _ _ (dayOf_own host m)).
      unfold hasSender, builtinSender in Hm. rewrite Hid, Ht in Hm. simpl in Hm.
      destruct (inherited id) eqn:Hin.
      - rewrite tallyUser_builtin; auto.
        + simpl in Hm. rewrite Hm. simpl. eauto.
        + destruct (getOwn (userStats acc) id) as [st|] eqn:E; [|reflexivity].
          apply getOwn_In in E. destruct Inv as [[_ Hown _ _ _] _ _].
          rewrite Forall_forall in Hown. apply Hown in E. simpl in E. congruence.
      - rewrite tallyUser_own by assumption. simpl. eauto. }
    destruct Hstep as (acc' & Hstep). rewrite Hstep. simpl.
    apply (IH (seen ++ [m])). eapply analysisInv_step; eauto.
Qed.

(* ===================================================================== *)
(** ** The peak finder *)
(* ===================================================================== *)

Lemma Chat_scan_hours day (l : list (string * num)) vars :
  fold_left
    (fun '(peakDay, peakHour, maxMessages) '(hour, count) =>
       if numGt count maxMessages then (day, parseInt hour, count)
       else (peakDay, peakHour, maxMessages)) l vars =
  fold_left better (map (fun '(hour, count) => (day, hour, count)) l) vars.
Proof.
  revert vars. induction l as [|[hour count] l IH]; intros [[d h] c]; simpl.
  - reflexivity.
  - apply IH.
Qed.

Lemma Chat_scan_cells ts : Chat.scan ts = fold_left better (cells ts) initialBest.
Proof.
  unfold Chat.scan, cells, initialBest.
  generalize (""%string, Int (-1), Int 0). generalize (entries ts).
  induction l as [|[day hours] l IH]; intros vars; simpl.
  - reflexivity.
  - rewrite fold_left_app, IH. f_equal. apply Chat_scan_hours.
Qed.

Lemma Index_scanHours_cells day hours best :
  Index.scanHours day hours (toPeak best) =
  toPeak (fold_left better (map (fun '(hour, count) => (day, hour, count)) (entries hours)) best).
Proof.
  unfold Index.scanHours. revert best.
  induction (entries hours) as [|[hour count] l IH]; intros [[d h] c]; simpl.
  - reflexivity.
  - destruct (numGt count c); apply (IH (_, _, _)).
Qed.

Lemma Index_findPeakTime_cells ts :
  Index.findPeakTime ts = toPeak (fold_left better (cells ts) initialBest).
Proof.
  unfold Index.findPeakTime, cells.
  change {| Index.peakDay := ""; Index.peakHour := Int (-1); Index.maxMessages := Int 0 |}
    with (toPeak initialBest).
  generalize initialBest. generalize (entries ts).
  induction l as [|[day hours] l IH]; intros best; simpl.
  - reflexivity.
  - rewrite fold_left_app, Index_scanHours_cells. apply IH.
Qed.

(** The scan keeps a running maximum: it ends on its start value, or on a
    cell that holds the greatest count. *)
Lemma better_fold l :
  Forall (fun c => positiveCell (snd c)) l ->
  forall d h m, 0 <= m ->
  exists d' h' m',
    fold_left better l (d, h, Int m) = (d', h', Int m') /\
    m <= m' /\
    Forall (fun c => cellZ (snd c) <= m') l /\
    ((d', h', m') = (d, h, m) \/
     exists hour, In (d', hour, Int m') l /\ h' = parseInt hour /\ m < m').
Proof.
  induction 1 as [|[[day hour] count] l Hc _ IH]; intros d h m Hm.
  - exists d, h, m. simpl. repeat split; auto; lia.
  - destruct Hc as (z & Hz & Hpos). simpl in Hz. subst count.
    simpl. destruct (Z.ltb_spec m z) as [Hlt|Hge].
    + destruct (IH day (parseInt hour) z ltac:(lia)) as (d' & h' & m' & E & Hle & Hall & Hor).
      exists d', h', m'. split; [exact E|]. split; [lia|]. split.
      * constructor; [simpl; lia | assumption].
      * right. destruct Hor as [Heq|(hour' & Hin & Hh' & Hlt')].
        -- injection Heq as -> -> ->. exists hour. simpl. auto.
        -- exists hour'. simpl. repeat split; auto. lia.
    + destruct (IH d h m Hm) as (d' & h' & m' & E & Hle & Hall & Hor).
      exists d', h', m'. split; [exact E|]. split; [lia|]. split.
      * constructor; [simpl; lia | assumption].
      * destruct Hor as [Heq|(hour' & Hin & Hh' & Hlt')]; [now left|].
        right. exists hour'. simpl. auto.
Qed.

Lemma In_cells ts day hour count :
  In (day, hour, count) (cells ts) <->
  exists hours, In (day, hours) ts /\ In (hour, count) hours.
Proof.
  unfold cells. rewrite in_flat_map. split.
  - intros ([day' hours] & Hin & Hc). apply in_map_iff in Hc.
    destruct Hc as ([hour' count'] & [= -> -> ->] & Hc).
    exists hours. split; [exact (proj1 (In_entries _ _) Hin) | exact (proj1 (In_entries _ _) Hc)].
  - intros (hours & Hin & Hc). exists (day, hours). split.
    + exact (proj2 (In_entries _ _) Hin).
    + apply in_map_iff. exists (hour, count). split; [reflexivity|].
      exact (proj2 (In_entries _ _) Hc).
Qed.

Lemma histogram_cells ts :
  histogram ts -> Forall (fun c => positiveCell (snd c)) (cells ts).
Proof.
  intros [_ H]. rewrite Forall_forall in *. intros [[day hour] count] Hin.
  apply In_cells in Hin. destruct Hin as (hours & Hd & Hc).
  destruct (H _ Hd) as (_ & _ & Hall). simpl in Hall.
  rewrite Forall_forall in Hall. apply (Hall _ Hc).
Qed.

Lemma histogram_cells_nonempty ts : histogram ts -> ts <> [] -> cells ts <> [].
Proof.
  intros [_ H] Hne. destruct ts as [|[day hours] ts]; [congruence|].
  inversion H as [|? ? (_ & Hh & _) _]; subst. simpl in Hh.
  destruct hours as [|[hour count] hours]; [congruence|].
  intros Hnil. apply (in_nil (a := (day, hour, count))). rewrite <- Hnil.
  apply In_cells. exists ((hour, count) :: hours). simpl. auto.
Qed.

(** On a non-empty histogram the scan ends on a cell with the greatest
    count, and the day of that cell is a key of the histogram. *)
Lemma scan_peak ts :
  histogram ts -> ts <> [] ->
  exists day hours hour count,
    fold_left better (cells ts) initialBest = (day, parseInt hour, Int count) /\
    getOwn ts day = Some hours /\
    getOwn hours hour = Some (Int count) /\
    Forall (fun c => cellZ (snd c) <= count) (cells ts).
Proof.
  intros Hh Hne.
  destruct (better_fold _ (histogram_cells _ Hh) ""%string (Int (-1)) 0 ltac:(lia))
    as (d' & h' & m' & E & Hle & Hall & Hor).
  destruct Hor as [[= -> -> ->]|(hour & Hin & -> & Hlt)].
  - exfalso. pose proof (histogram_cells_nonempty _ Hh Hne) as Hc.
    pose proof (histogram_cells _ Hh) as Hp.
    destruct (cells ts) as [|c l]; [congruence|].
    inversion Hall as [|? ? Hc1 _]; subst. inversion Hp as [|? ? (z & Hz & Hpos) _]; subst.
    rewrite Hz in Hc1. simpl in Hc1. lia.
  - apply In_cells in Hin. destruct Hin as (hours & Hd & Hc).
    exists d', hours, hour, m'. repeat split; auto.
    + apply In_getOwn; [apply Hh | assumption].
    + apply In_getOwn; [|assumption].
      destruct Hh as [_ Hh]. rewrite Forall_forall in Hh. apply (Hh _ Hd).
Qed.

(* ===================================================================== *)
(** ** The percentage calculator *)
(* ===================================================================== *)

Lemma fold_put_lookup {V W} (f : V -> W) (l : list (string * V)) :
  NoDup (map fst l) ->
  Forall (fun e => inherited (fst e) = false) l ->
  forall (o : object W) k,
    getOwn (fold_left (fun o '(k, v) => put o k (f v)) l o) k =
    match getOwn l k with
    | Some v => Some (f v)
    | None => getOwn o k
    end.
Proof.
  induction l as [|[k1 v1] l IH]; intros Hnd Hown o k; simpl; [reflexivity|].
  inversion Hnd as [|? ? Hnotin Hnd']; subst.
  inversion Hown as [|? ? Hk1 Hown']; subst. simpl in Hk1.
  rewrite IH by assumption.
  destruct (String.eqb_spec k1 k) as [->|Hne].
  - rewrite (proj2 (getOwn_None l k) Hnotin).
    rewrite put_fresh by assumption. apply getOwn_defineOwn_same.
  - destruct (getOwn l k); [reflexivity|]. now apply getOwn_put_other.
Qed.

Lemma Index_calculatePercentages_lookup host us total user stats :
  distinctKeys us ->
  Forall (fun e => inherited (fst e) = false) us ->
  In (user, stats) (entries us) ->
  getOwn (Index.calculatePercentages host us total) user =
  Some (Index.percentagesOf host stats total).
Proof.
  intros Hd Hown Hin. unfold Index.calculatePercentages.
  rewrite (fold_put_lookup (fun stats => Index.percentagesOf host stats total)).
  - rewrite (In_getOwn (entries us) user stats); auto.
    now apply distinctKeys_entries.
  - now apply distinctKeys_entries.
  - now apply Forall_entries.
Qed.

Lemma Chat_calculatePercentages_same host us total :
  Chat.calculatePercentages host us total = Index.calculatePercentages host us total.
Proof. reflexivity. Qed.

(* ===================================================================== *)
(** ** The properties of the specification *)
(* ===================================================================== *)

(** C7.  A message whose [from_id] is absent leaves the three aggregation
    structures as they were: the callback of either file completes with
    the state it was given. *)
Theorem senderless_message_changes_nothing host acc message :
  from_id message = None ->
  Index.forEachBody host acc message = Normal acc /\
  Chat.forEachBody host acc message = Normal acc.
Proof.
  intros H. unfold Index.forEachBody, Chat.forEachBody. now rewrite H.
Qed.

Lemma senderless_message_changes_nothing_witness :
  from_id senderless = None /\
  Index.forEachBody utc noAnalysis senderless = Normal noAnalysis /\
  Chat.forEachBody utc noAnalysis senderless = Normal noAnalysis.
Proof.
  split; [reflexivity|].
  apply (senderless_message_changes_nothing utc noAnalysis senderless).
  reflexivity.
Defined.

(** C1, as amended.  Whenever [analyzeChat] returns, the cells of the
    histogram add up to the number of messages whose [from_id] is present
    and non-empty, whether or not their timestamp parses; a message without
    sender id adds to no cell. *)
Theorem histogram_total_counts_senders host jsonData r :
  Index.analyzeChat host jsonData = Normal r \/
  Chat.analyzeChat host jsonData = Normal r ->
  cellTotal (timeStats r) = Int (countIf hasSender (ChatData.messages jsonData)).
Proof.
  intros H. apply analyzeChat_inv in H. destruct H as [_ _ [Hh Ht]].
  now rewrite cellTotal_Int, Ht.
Qed.

Lemma histogram_total_counts_senders_witness :
  exists r,
    Index.analyzeChat utc scenario = Normal r /\
    cellTotal (timeStats r) = Int 3.
Proof.
  eexists. split; [reflexivity|].
  exact (histogram_total_counts_senders utc scenario _ (or_introl eq_refl)).
Defined.

(** C1, as stated, fails: a message without sender id whose timestamp
    parses is in no cell of the histogram. *)
Lemma histogram_misses_senderless_message :
  let jsonData := {| ChatData.messages := [senderless] |} in
  exists r,
    Index.analyzeChat utc jsonData = Normal r /\
    Chat.analyzeChat utc jsonData = Normal r /\
    countIf parseable (ChatData.messages jsonData) = 1 /\
    cellTotal (timeStats r) = Int 0 /\
    cellTotal (timeStats r) <> Int (countIf parseable (ChatData.messages jsonData)).
Proof.
  exists noAnalysis. repeat split; discriminate.
Qed.

(** C2.  On the empty histogram [findPeakTime] of index.ts returns the
    sentinel, and [findPeakTime] of chat.ts throws a TypeError at
    [Object.keys(timeStats[""])]. *)
Theorem findPeakTime_empty host :
  Index.findPeakTime [] =
    {| Index.peakDay := ""; Index.peakHour := Int (-1); Index.maxMessages := Int 0 |} /\
  Chat.findPeakTime host [] = Throw TypeError.
Proof. split; reflexivity. Qed.

(** C3.  A sender id that names a member of Object.prototype gets no
    entry: on [inheritedId] the message counters add up to 0 although one
    message has a non-empty sender id. *)
Theorem inherited_sender_id_is_not_counted :
  exists r,
    Index.analyzeChat utc inheritedId = Normal r /\
    Chat.analyzeChat utc inheritedId = Normal r /\
    userStats r = [] /\
    sumOver Stats.messages (entries (userStats r)) = 0 /\
    countIf hasSender (ChatData.messages inheritedId) = 1.
Proof.
  eexists. split; [reflexivity|]. repeat split.
Qed.

(** Whenever [analyzeChat] returns, the message counters add up to the
    number of messages whose sender id is non-empty and does not name a
    member of Object.prototype. *)
Theorem messages_total host jsonData r :
  Index.analyzeChat host jsonData = Normal r \/
  Chat.analyzeChat host jsonData = Normal r ->
  sumOver Stats.messages (entries (userStats r)) =
  countIf (fun m => hasSender m && negb (builtinSender m)) (ChatData.messages jsonData).
Proof.
  intros H. apply analyzeChat_inv in H. destruct H as [[] _ _].
  now rewrite sumOver_entries.
Qed.

(** C8.  In every entry of the [userStats] that [analyzeChat] returns, each
    of the five media counters is at most the message counter. *)
Theorem media_counters_bounded host jsonData r user stats :
  Index.analyzeChat host jsonData = Normal r \/
  Chat.analyzeChat host jsonData = Normal r ->
  In (user, stats) (entries (userStats r)) ->
  Stats.photos (Stats.media stats) <= Stats.messages stats /\
  Stats.videoMessages (Stats.media stats) <= Stats.messages stats /\
  Stats.videoFiles (Stats.media stats) <= Stats.messages stats /\
  Stats.voice (Stats.media stats) <= Stats.messages stats /\
  Stats.stickers (Stats.media stats) <= Stats.messages stats.
Proof.
  intros H Hin. apply analyzeChat_inv in H. destruct H as [[_ _ Hb _ _] _ _].
  apply (proj1 (In_entries _ _)) in Hin. rewrite Forall_forall in Hb.
  destruct (Hb _ Hin) as [_ B]. simpl in B.
  repeat split;
    [apply (B Photos) | apply (B VideoMessages) | apply (B VideoFiles)
     | apply (B Voice) | apply (B Stickers)].
Qed.

(** C10.  Every entry of the [userStats] that [analyzeChat] returns has
    counted at least one message, so the denominator [stats.messages] of
    [calculatePercentages], which iterates over these entries, is not 0. *)
Theorem userStats_entries_have_messages host jsonData r user stats :
  Index.analyzeChat host jsonData = Normal r \/
  Chat.analyzeChat host jsonData = Normal r ->
  In (user, stats) (entries (userStats r)) ->
  1 <= Stats.messages stats /\ Stats.messages stats <> 0.
Proof.
  intros H Hin. apply analyzeChat_inv in H. destruct H as [[_ _ Hb _ _] _ _].
  apply (proj1 (In_entries _ _)) in Hin. rewrite Forall_forall in Hb.
  destruct (Hb _ Hin) as [B _]. simpl in B. lia.
Qed.

(** C9.  In the [userNames] that [analyzeChat] returns, the name stored
    for a sender id is the last non-empty [from] among that sender's
    messages, in input order, and a sender who supplied none has no entry.
    The map holds exactly these entries: every sender id that supplied a
    non-empty name has one, but for the id [__proto__], whose assignment
    goes to the inherited setter and stores nothing. *)
Theorem userNames_last_write_wins host jsonData r :
  Index.analyzeChat host jsonData = Normal r \/
  Chat.analyzeChat host jsonData = Normal r ->
  (forall id,
      id <> "__proto__"%string ->
      getOwn (userNames r) id = lastName id (ChatData.messages jsonData)) /\
  getOwn (userNames r) "__proto__" = None /\
  (forall id name,
      getOwn (userNames r) id = Some name ->
      lastName id (ChatData.messages jsonData) = Some name) /\
  (forall id,
      namesOf id (ChatData.messages jsonData) = [] ->
      getOwn (userNames r) id = None).
Proof.
  intros H. apply analyzeChat_inv in H. destruct H as [_ Hun _].
  split; [|split; [|split]].
  - intros id Hid. rewrite Hun.
    destruct (String.eqb_spec id "__proto__"); [contradiction | reflexivity].
  - apply (Hun "__proto__"%string).
  - intros id name E. rewrite Hun in E.
    destruct (String.eqb id "__proto__"); [discriminate | assumption].
  - intros id E. rewrite Hun. unfold lastName. rewrite E. simpl.
    now destruct (String.eqb id "__proto__").
Qed.

Lemma userNames_last_write_wins_witness :
  Index.analyzeChat utc scenario = Normal scenarioAnalysis /\
  "u1"%string <> "__proto__"%string /\
  getOwn (userNames scenarioAnalysis) "u1" = Some "Anna"%string /\
  lastName "u1" (ChatData.messages scenario) = Some "Anna"%string /\
  getOwn (userNames scenarioAnalysis) "u2" = None.
Proof.
  split; [reflexivity|].
  destruct (userNames_last_write_wins utc scenario scenarioAnalysis
              (or_introl eq_refl)) as (Hexact & _ & Hlast & Hnone).
  split; [discriminate|]. split; [|split].
  - apply (Hexact "u1"%string). discriminate.
  - apply Hlast. reflexivity.
  - apply Hnone. reflexivity.
Defined.

Lemma media_counters_bounded_witness :
  Index.analyzeChat utc scenario = Normal scenarioAnalysis /\
  In ("u1"%string, u1Stats) (entries (userStats scenarioAnalysis)) /\
  Stats.photos (Stats.media u1Stats) <= Stats.messages u1Stats /\
  Stats.videoMessages (Stats.media u1Stats) <= Stats.messages u1Stats /\
  Stats.videoFiles (Stats.media u1Stats) <= Stats.messages u1Stats /\
  Stats.voice (Stats.media u1Stats) <= Stats.messages u1Stats /\
  Stats.stickers (Stats.media u1Stats) <= Stats.messages u1Stats.
Proof.
  split; [reflexivity|]. split; [left; reflexivity|].
  apply (media_counters_bounded utc scenario scenarioAnalysis "u1" u1Stats).
  - left. reflexivity.
  - left. reflexivity.
Defined.

Lemma userStats_entries_have_messages_witness :
  Chat.analyzeChat utc scenario = Normal scenarioAnalysis /\
  In ("u2"%string, u2Stats) (entries (userStats scenarioAnalysis)) /\
  1 <= Stats.messages u2Stats /\ Stats.messages u2Stats <> 0.
Proof.
  split; [reflexivity|]. split; [right; left; reflexivity|].
  apply (userStats_entries_have_messages utc scenario scenarioAnalysis "u2" u2Stats).
  - right. reflexivity.
  - right. left. reflexivity.
Defined.

Lemma kindShare_percentagesOf host k stats total :
  Pct.totalPercentage (kindShare k (Index.percentagesOf host stats total)) =
  Index.percent host (kindCount k stats) total.
Proof. destruct k; reflexivity. Qed.

(** C4, as amended.  Whenever [analyzeChat] returns, the per-user counts
    of a media kind add up to the number of messages of that kind that have
    a sender, and the [totalPercentage] that [calculatePercentages] stores
    for a user is the two-decimal rendering of that user's count over the
    grand total; the rendered percentages themselves need not add up to the
    rendering of the overall share. *)
Theorem kind_counts_add_up host jsonData r k :
  Index.analyzeChat host jsonData = Normal r \/
  Chat.analyzeChat host jsonData = Normal r ->
  sumOver (kindCount k) (entries (userStats r)) =
    countIf (fun m => hasSender m && hasKind k m) (ChatData.messages jsonData) /\
  forall user stats,
    In (user, stats) (entries (userStats r)) ->
    exists p,
      getOwn (Index.calculatePercentages host (userStats r) (totalMessages jsonData)) user
        = Some p /\
      getOwn (Chat.calculatePercentages host (userStats r) (totalMessages jsonData)) user
        = Some p /\
      Pct.totalPercentage (kindShare k p) =
        Index.percent host (kindCount k stats) (totalMessages jsonData).
Proof.
  intros H. apply analyzeChat_inv in H. destruct H as [[Hd Hown _ _ Hk] _ _]. split.
  - now rewrite sumOver_entries.
  - intros user stats Hin.
    exists (Index.percentagesOf host stats (totalMessages jsonData)).
    pose proof (Index_calculatePercentages_lookup host _ (totalMessages jsonData)
                  user stats Hd Hown Hin) as L.
    split; [exact L|]. split; [exact L|]. apply kindShare_percentagesOf.
Qed.

Lemma kind_counts_add_up_witness :
  exists r,
    Index.analyzeChat utc threePhotos = Normal r /\
    sumOver (kindCount Photos) (entries (userStats r)) = 3.
Proof.
  eexists. split; [reflexivity|].
  exact (proj1 (kind_counts_add_up utc threePhotos _ Photos (or_introl eq_refl))).
Defined.

(** C4, as stated, fails: with three senders of one photo each, every
    share of the total is 33.33%, which adds up to 99.99%, while the share of
    photos in the grand total is 100.00%. *)
Lemma shares_of_total_do_not_add_up :
  exists r,
    Index.analyzeChat utc threePhotos = Normal r /\
    let percentages :=
      Index.calculatePercentages utc (userStats r) (totalMessages threePhotos) in
    let overall :=
      Index.percent utc (sumOver (kindCount Photos) (entries (userStats r)))
        (totalMessages threePhotos) in
    sharesOfTotal Photos percentages = ["33.33%"; "33.33%"; "33.33%"]%string /\
    sumHundredths (sharesOfTotal Photos percentages) = Some 9999 /\
    overall = "100.00%"%string /\
    hundredths overall = Some 10000 /\
    sumHundredths (sharesOfTotal Photos percentages) <> hundredths overall.
Proof.
  eexists. split; [reflexivity|]. vm_compute. repeat split. discriminate.
Qed.

(** The two loops of either [findPeakTime] scan the same cells. *)
Lemma Chat_findPeakTime_scan host ts :
  Chat.findPeakTime host ts =
  let p := Index.findPeakTime ts in
  match getOwn ts (Index.peakDay p) with
  | None => Throw TypeError
  | Some hours =>
      Normal {| Chat.peakDay := Index.peakDay p;
                Chat.peakHour := Index.peakHour p;
                Chat.maxMessages := Index.maxMessages p;
                Chat.averageMessages :=
                  toFixed2 host
                    (PrimFloat.div (numToFloat (Index.maxMessages p))
                       (toFloat (Z.of_nat (List.length (keys hours))))) |}
  end.
Proof.
  unfold Chat.findPeakTime. rewrite Index_findPeakTime_cells, Chat_scan_cells.
  destruct (fold_left better (cells ts) initialBest) as [[d h] c]. reflexivity.
Qed.

(** C5.  The two files compute the same [analyzeChat] and the same
    [calculatePercentages]; their [findPeakTime] agree on the day, the hour
    and the count whenever that of chat.ts returns, which it does not on the
    empty histogram, where that of index.ts returns the sentinel. *)
Theorem implementations_agree_but_on_empty_histogram host :
  (forall jsonData, Chat.analyzeChat host jsonData = Index.analyzeChat host jsonData) /\
  (forall us total,
      Chat.calculatePercentages host us total = Index.calculatePercentages host us total) /\
  (forall ts,
      match Chat.findPeakTime host ts with
      | Normal p =>
          {| Index.peakDay := Chat.peakDay p; Index.peakHour := Chat.peakHour p;
             Index.maxMessages := Chat.maxMessages p |} = Index.findPeakTime ts
      | Throw _ => getOwn ts (Index.peakDay (Index.findPeakTime ts)) = None
      end) /\
  Chat.findPeakTime host [] = Throw TypeError /\
  Index.findPeakTime [] =
    {| Index.peakDay := ""; Index.peakHour := Int (-1); Index.maxMessages := Int 0 |}.
Proof.
  split; [apply Chat_analyzeChat_same|].
  split; [apply Chat_calculatePercentages_same|].
  split; [|split; reflexivity].
  intros ts. rewrite Chat_findPeakTime_scan. cbv zeta.
  destruct (getOwn ts (Index.peakDay (Index.findPeakTime ts))); [|reflexivity].
  simpl. now destruct (Index.findPeakTime ts).
Qed.

(** C6.  On a non-empty histogram [findPeakTime] of chat.ts returns the
    cell with the greatest count, and its [averageMessages] is that count
    divided by the number of hour keys of the peak day, rendered with two
    decimals. *)
Theorem averageMessages_divides_by_hour_buckets host ts :
  histogram ts -> ts <> [] ->
  exists day hours hour count,
    getOwn ts day = Some hours /\
    getOwn hours hour = Some (Int count) /\
    Forall (fun c => cellZ (snd c) <= count) (cells ts) /\
    NoDup (keys hours) /\
    Chat.findPeakTime host ts =
      Normal {| Chat.peakDay := day; Chat.peakHour := parseInt hour;
                Chat.maxMessages := Int count;
                Chat.averageMessages :=
                  toFixed2 host
                    (PrimFloat.div (toFloat count)
                       (toFloat (Z.of_nat (List.length (keys hours))))) |}.
Proof.
  intros Hh Hne.
  destruct (scan_peak ts Hh Hne) as (day & hours & hour & count & E & Hd & Hc & Hmax).
  exists day, hours, hour, count. repeat split; auto.
  - apply distinctKeys_entries.
    destruct (histogram_day _ _ _ Hh Hd) as (? & _). assumption.
  - unfold Chat.findPeakTime. rewrite Chat_scan_cells, E, Hd. reflexivity.
Qed.

Lemma mondayHistogram_histogram : histogram mondayHistogram.
Proof.
  unfold mondayHistogram, histogram, distinctKeys. simpl. split.
  - repeat constructor. simpl. tauto.
  - repeat constructor; simpl.
    + intros [H|[]]. discriminate H.
    + tauto.
    + discriminate.
    + exists 2. split; [reflexivity|lia].
    + exists 1. split; [reflexivity|lia].
Qed.

Lemma averageMessages_divides_by_hour_buckets_witness :
  histogram mondayHistogram /\ mondayHistogram <> [] /\
  exists day hours hour count,
    getOwn mondayHistogram day = Some hours /\
    getOwn hours hour = Some (Int count) /\
    Forall (fun c => cellZ (snd c) <= count) (cells mondayHistogram) /\
    NoDup (keys hours) /\
    Chat.findPeakTime utc mondayHistogram =
      Normal {| Chat.peakDay := day; Chat.peakHour := parseInt hour;
                Chat.maxMessages := Int count;
                Chat.averageMessages :=
                  toFixed2 utc
                    (PrimFloat.div (toFloat count)
                       (toFloat (Z.of_nat (List.length (keys hours))))) |}.
Proof.
  split; [exact mondayHistogram_histogram|]. split; [discriminate|].
  apply (averageMessages_divides_by_hour_buckets utc mondayHistogram).
  - exact mondayHistogram_histogram.
  - discriminate.
Defined.

(** On [mondayHistogram] the peak count 2 is divided by the 2 hours that
    Monday recorded, not by 24. *)
Lemma average_is_not_hourly :
  Chat.findPeakTime utc mondayHistogram =
    Normal {| Chat.peakDay := "Monday"; Chat.peakHour := Int 10;
              Chat.maxMessages := Int 2; Chat.averageMessages := "1.00" |} /\
  toFixed2 utc (PrimFloat.div (toFloat 2) (toFloat 24)) = "0.08"%string.
Proof. split; reflexivity. Qed.

(* ===================================================================== *)
(** ** Further properties of [analyzeChat] *)
(* ===================================================================== *)

Lemma messages_total_witness :
  Index.analyzeChat utc scenario = Normal scenarioAnalysis /\
  sumOver Stats.messages (entries (userStats scenarioAnalysis)) = 3.
Proof.
  split; [reflexivity|].
  exact (messages_total utc scenario scenarioAnalysis (or_introl eq_refl)).
Defined.

(** [analyzeChat] of either file returns unless a message whose sender id
    names a member of Object.prototype matches one of the media tests. *)
Theorem analyzeChat_returns host jsonData :
  Forall (fun m => hasSender m && builtinSender m && anyKind m = false)
    (ChatData.messages jsonData) ->
  exists r,
    Index.analyzeChat host jsonData = Normal r /\
    Chat.analyzeChat host jsonData = Normal r.
Proof.
  intros H. rewrite Chat_analyzeChat_same. unfold Index.analyzeChat.
  destruct (forEach_returns host (ChatData.messages jsonData) noAnalysis [])
    as (r & Hr); auto.
  - split; [apply usInv_nil | apply unInv_nil | apply tsInv_nil].
  - exists r. split; exact Hr.
Qed.

Lemma analyzeChat_returns_witness :
  Forall (fun m => hasSender m && builtinSender m && anyKind m = false)
    (ChatData.messages inheritedId) /\
  exists r,
    Index.analyzeChat utc inheritedId = Normal r /\
    Chat.analyzeChat utc inheritedId = Normal r.
Proof.
  split.
  - repeat constructor.
  - apply (analyzeChat_returns utc inheritedId). repeat constructor.
Defined.

(** The [timeStats] that [analyzeChat] returns satisfies the data-model
    invariant of a histogram: distinct keys, no day without a cell, and
    every cell an integer count of at least 1. *)
Theorem analyzeChat_histogram host jsonData r :
  Index.analyzeChat host jsonData = Normal r \/
  Chat.analyzeChat host jsonData = Normal r ->
  histogram (timeStats r).
Proof.
  intros H. apply analyzeChat_inv in H. now destruct H as [_ _ [Hh _]].
Qed.

Lemma analyzeChat_histogram_witness :
  Index.analyzeChat utc scenario = Normal scenarioAnalysis /\
  histogram (timeStats scenarioAnalysis).
Proof.
  split; [reflexivity|].
  exact (analyzeChat_histogram utc scenario scenarioAnalysis (or_introl eq_refl)).
Defined.

(* ===================================================================== *)
(** ** [analyzeChat], entry by entry *)
(* ===================================================================== *)

Lemma forEachBody_skip host acc m :
  hasSender m = false -> Index.forEachBody host acc m = Normal acc.
Proof.
  unfold hasSender, Index.forEachBody. destruct (from_id m) as [id|]; [|reflexivity].
  now intros ->.
Qed.

Lemma countIf_zero {A} (p : A -> bool) l :
  countIf p l = 0 <-> Forall (fun x => p x = false) l.
Proof.
  unfold countIf. induction l as [|x l IH]; simpl.
  - split; [constructor | reflexivity].
  - destruct (p x) eqn:E; simpl.
    + split; [lia|]. intros H. inversion H; congruence.
    + rewrite IH. split; [now constructor | now inversion 1].
Qed.

Lemma countIf_zero_and {A} (p q : A -> bool) l :
  countIf p l = 0 -> countIf (fun x => p x && q x) l = 0.
Proof.
  rewrite !countIf_zero. apply Forall_impl. now intros x ->.
Qed.

Lemma countIf_pos {A} (p : A -> bool) l :
  countIf p l <> 0 -> exists x, In x l /\ p x = true.
Proof.
  unfold countIf. induction l as [|x l IH]; simpl; [congruence|].
  destruct (p x) eqn:E.
  - intros _. exists x. auto.
  - intros H. destruct (IH H) as (y & Hy & Hp). exists y. auto.
Qed.

Lemma countIf_le_length {A} (p : A -> bool) l :
  0 <= countIf p l <= Z.of_nat (List.length l).
Proof.
  unfold countIf. pose proof (filter_length_le p l). lia.
Qed.

Lemma countIf_le {A} (p q : A -> bool) l :
  (forall x, p x = true -> q x = true) -> countIf p l <= countIf q l.
Proof.
  intros H. unfold countIf. induction l as [|x l IH]; simpl; [lia|].
  destruct (p x) eqn:E.
  - rewrite (H _ E). simpl. lia.
  - destruct (q x); simpl; lia.
Qed.

Lemma sentBy_sender m id :
  from_id m = Some id -> hasSender m = true ->
  forall id', sentBy id' m = String.eqb id id'.
Proof.
  intros Hid Hs id'. unfold sentBy, hasSender in *. rewrite Hid in *.
  rewrite Hs. apply andb_true_r.
Qed.

Lemma sentBy_senderless m id : hasSender m = false -> sentBy id m = false.
Proof.
  unfold sentBy, hasSender. destruct (from_id m) as [i|]; [|reflexivity].
  intros ->. apply andb_false_r.
Qed.

(** One more message of [id] advances its record of counts by [tally]. *)
Lemma statsOf_snoc_sent id seen m :
  sentBy id m = true -> statsOf id (seen ++ [m]) = tally m (statsOf id seen).
Proof.
  intros Hs. unfold statsOf, tally. cbv zeta.
  rewrite !countIf_snoc, Hs. unfold hasKind. cbn [andb].
  destruct (truthy (photo m));
    destruct (strictEq (media_type m) "video_message");
    destruct (strictEq (media_type m) "video_file");
    destruct (strictEq (media_type m) "voice_message");
    destruct (strictEq (media_type m) "sticker");
    unfold Stats.withMedia, Stats.incMessages, Stats.incPhotos,
      Stats.incVideoMessages, Stats.incVideoFiles, Stats.incVoice,
      Stats.incStickers; cbn [Stats.messages Stats.media Stats.photos
      Stats.videoMessages Stats.videoFiles Stats.voice Stats.stickers];
    rewrite ?Z.add_0_r; reflexivity.
Qed.

Lemma statsOf_snoc_other id seen m :
  sentBy id m = false -> statsOf id (seen ++ [m]) = statsOf id seen.
Proof.
  intros Hs. unfold statsOf. cbv zeta. rewrite !countIf_snoc, Hs.
  cbn [andb]. now rewrite !Z.add_0_r.
Qed.

Lemma statsOf_none id seen :
  countIf (sentBy id) seen = 0 -> statsOf id seen = Stats.fresh.
Proof.
  intros H. unfold statsOf, Stats.fresh. cbv zeta.
  now rewrite H, !(countIf_zero_and _ _ _ H).
Qed.

Lemma perUser_nil : perUser [] [].
Proof. intros id. simpl. now rewrite orb_true_r. Qed.

Lemma perUser_skip seen m us :
  hasSender m = false -> perUser seen us -> perUser (seen ++ [m]) us.
Proof.
  intros Hs Inv id. rewrite Inv, countIf_snoc, (sentBy_senderless _ _ Hs).
  rewrite Z.add_0_r. destruct (inherited id || _); [reflexivity|].
  now rewrite statsOf_snoc_other by now apply sentBy_senderless.
Qed.

Lemma perUser_tally seen m id us us' :
  from_id m = Some id -> hasSender m = true ->
  perUser seen us -> tallyUser m id us = Normal us' -> perUser (seen ++ [m]) us'.
Proof.
  intros Hid Hs Inv Ht id'.
  pose proof (sentBy_sender m id Hid Hs) as Hsent.
  pose proof (countIf_le_length (sentBy id') seen) as Hn.
  rewrite countIf_snoc, (Hsent id').
  destruct (inherited id) eqn:Hin.
  - assert (E : getOwn us id = None) by (rewrite Inv, Hin; reflexivity).
    rewrite tallyUser_builtin in Ht by assumption.
    destruct (anyKind m); [discriminate|]. injection Ht as <-.
    rewrite Inv. destruct (String.eqb_spec id id') as [<-|Hne].
    + now rewrite Hin.
    + rewrite Z.add_0_r. destruct (inherited id' || _); [reflexivity|].
      rewrite statsOf_snoc_other; [reflexivity|].
      rewrite Hsent. now apply String.eqb_neq.
  - rewrite tallyUser_own in Ht by assumption. injection Ht as <-.
    destruct (String.eqb_spec id id') as [<-|Hne].
    + rewrite getOwn_defineOwn_same, Hin. cbn [orb].
      destruct (Z.eqb_spec (countIf (sentBy id) seen + 1) 0) as [|_]; [lia|].
      f_equal. rewrite statsOf_snoc_sent by (rewrite Hsent; apply String.eqb_refl).
      f_equal. rewrite Inv, Hin. cbn [orb].
      destruct (Z.eqb_spec (countIf (sentBy id) seen) 0) as [Hz|_]; [|reflexivity].
      symmetry. now apply statsOf_none.
    + rewrite getOwn_defineOwn_other by assumption. rewrite Inv, Z.add_0_r.
      destruct (inherited id' || _); [reflexivity|].
      rewrite statsOf_snoc_other; [reflexivity|].
      rewrite Hsent. now apply String.eqb_neq.
Qed.

Lemma Index_analyzeChat_perUser host jsonData r :
  Index.analyzeChat host jsonData = Normal r ->
  perUser (ChatData.messages jsonData) (userStats r).
Proof.
  unfold Index.analyzeChat.
  apply (forEach_prefix (Index.forEachBody host) (fun seen acc => perUser seen (userStats acc))).
  - apply perUser_nil.
  - intros seen m s s' Inv Hstep.
    rewrite Index_forEachBody_strands in Hstep. apply strands_Normal in Hstep.
    destruct Hstep as [(Hs & ->)|(id & Hid & Hs & Ht & _)].
    + now apply perUser_skip.
    + eapply perUser_tally; eauto.
Qed.

(** The entry [analyzeChat] stores for a sender id is the record of that
    sender's counts: the number of its messages and, per media kind, the
    number of them that pass the test of the kind.  An id has an entry when
    it sent a message, unless it names a member of Object.prototype. *)
Theorem userStats_entry_counts host jsonData r id :
  Index.analyzeChat host jsonData = Normal r \/
  Chat.analyzeChat host jsonData = Normal r ->
  getOwn (userStats r) id =
  if inherited id || (countIf (sentBy id) (ChatData.messages jsonData) =? 0)
  then None
  else Some (statsOf id (ChatData.messages jsonData)).
Proof.
  rewrite Chat_analyzeChat_same. intros H.
  assert (H' : Index.analyzeChat host jsonData = Normal r) by tauto.
  apply (Index_analyzeChat_perUser host jsonData r H').
Qed.

Lemma userStats_entry_counts_witness :
  Index.analyzeChat utc scenario = Normal scenarioAnalysis /\
  getOwn (userStats scenarioAnalysis) "u1" = Some u1Stats /\
  getOwn (userStats scenarioAnalysis) "nobody" = None.
Proof.
  split; [reflexivity|]. split.
  - exact (userStats_entry_counts utc scenario scenarioAnalysis "u1"
             (or_introl eq_refl)).
  - exact (userStats_entry_counts utc scenario scenarioAnalysis "nobody"
             (or_introl eq_refl)).
Defined.

Lemma perCell_nil host : perCell host [] [].
Proof. intros day key. reflexivity. Qed.

Lemma inCell_senderless host day key m :
  hasSender m = false -> inCell host day key m = false.
Proof. unfold inCell. now intros ->. Qed.

Lemma perCell_skip host seen m ts :
  hasSender m = false -> perCell host seen ts -> perCell host (seen ++ [m]) ts.
Proof.
  intros Hs Inv day key.
  now rewrite Inv, countIf_snoc, (inCell_senderless _ _ _ _ Hs), Z.add_0_r.
Qed.

Lemma perCell_record host seen m ts ts' :
  hasSender m = true -> perCell host seen ts ->
  recordCellIndex (dayOf host m) (hourOf host m) ts = Normal ts' ->
  perCell host (seen ++ [m]) ts'.
Proof.
  intros Hs Inv Hr day key.
  rewrite (recordCellIndex_own _ _ _ (dayOf_own host m)) in Hr. injection Hr as <-.
  pose proof (countIf_le_length (inCell host day key) seen) as Hn.
  assert (Hcell : inCell host day key m =
                  String.eqb (dayOf host m) day
                  && String.eqb (numKey (hourOf host m)) key)
    by (unfold inCell; now rewrite Hs).
  rewrite countIf_snoc, Hcell.
  unfold cellAt, hoursOf at 1.
  destruct (String.eqb_spec (dayOf host m) day) as [<-|Hd]; cbn [andb].
  - rewrite getOwn_defineOwn_same.
    destruct (String.eqb_spec (numKey (hourOf host m)) key) as [<-|Hk].
    + rewrite getOwn_defineOwn_same.
      specialize (Inv (dayOf host m) (numKey (hourOf host m))).
      unfold cellAt in Inv. rewrite Inv.
      set (n := countIf (inCell host (dayOf host m) (numKey (hourOf host m))) seen) in *.
      cbn [andb].
      destruct (Z.eqb_spec n 0) as [Hz|Hz].
      * rewrite Hz. reflexivity.
      * cbn [orZero numTruthy]. destruct (Z.eqb_spec n 0) as [|_]; [contradiction|].
        cbn [negb numAdd]. destruct (Z.eqb_spec (n + 1) 0) as [|_]; [lia|].
        reflexivity.
    + rewrite getOwn_defineOwn_other by assumption. rewrite Z.add_0_r. apply Inv.
  - rewrite getOwn_defineOwn_other by assumption. rewrite Z.add_0_r. apply Inv.
Qed.

Lemma Index_analyzeChat_perCell host jsonData r :
  Index.analyzeChat host jsonData = Normal r ->
  perCell host (ChatData.messages jsonData) (timeStats r).
Proof.
  unfold Index.analyzeChat.
  apply (forEach_prefix (Index.forEachBody host)
           (fun seen acc => perCell host seen (timeStats acc))).
  - apply perCell_nil.
  - intros seen m s s' Inv Hstep.
    rewrite Index_forEachBody_strands in Hstep. apply strands_Normal in Hstep.
    destruct Hstep as [(Hs & ->)|(id & _ & Hs & _ & _ & Hc)].
    + now apply perCell_skip.
    + eapply perCell_record; eauto.
Qed.

(** The cell [analyzeChat] stores for a weekday and an hour key holds the
    number of messages with a sender that fall on that weekday and hour; a
    cell no such message falls into is absent. *)
Theorem timeStats_cell_counts host jsonData r day key :
  Index.analyzeChat host jsonData = Normal r \/
  Chat.analyzeChat host jsonData = Normal r ->
  cellAt (timeStats r) day key =
  if countIf (inCell host day key) (ChatData.messages jsonData) =? 0 then None
  else Some (Int (countIf (inCell host day key) (ChatData.messages jsonData))).
Proof.
  rewrite Chat_analyzeChat_same. intros H.
  assert (H' : Index.analyzeChat host jsonData = Normal r) by tauto.
  apply (Index_analyzeChat_perCell host jsonData r H').
Qed.

Lemma timeStats_cell_counts_witness :
  Index.analyzeChat utc scenario = Normal scenarioAnalysis /\
  cellAt (timeStats scenarioAnalysis) "Monday" "10" = Some (Int 2) /\
  cellAt (timeStats scenarioAnalysis) "Tuesday" "2" = None.
Proof.
  split; [reflexivity|]. split.
  - exact (timeStats_cell_counts utc scenario scenarioAnalysis "Monday" "10"
             (or_introl eq_refl)).
  - exact (timeStats_cell_counts utc scenario scenarioAnalysis "Tuesday" "2"
             (or_introl eq_refl)).
Defined.

(** The weekday and the hour a message falls on: an invalid date gives
    ["Invalid Date"] and NaN, a valid one a weekday name and an hour from 0
    to 23. *)
Lemma slot_valid host m :
  (dayOf host m = "Invalid Date"%string /\ hourOf host m = NaN) \/
  (In (dayOf host m) weekdayNames /\
   exists h, 0 <= h <= 23 /\ hourOf host m = Int h).
Proof.
  unfold dayOf, hourOf, toLocaleWeekday, getHours.
  destruct (newDate _) as [t|]; [right|left; auto]. split.
  - set (w := (_ + 4) mod 7).
    assert (Hw : 0 <= w < 7) by (apply Z.mod_pos_bound; lia).
    assert (C : w = 0 \/ w = 1 \/ w = 2 \/ w = 3 \/ w = 4 \/ w = 5 \/ w = 6) by lia.
    destruct C as [->|[->|[->|[->|[->|[->| ->]]]]]]; simpl; tauto.
  - eexists. split; [|reflexivity].
    pose proof (Z.mod_pos_bound ((t + LocalTZA host t) / msPerHour) 24 ltac:(lia)).
    lia.
Qed.

(** Every day key of the [timeStats] that [analyzeChat] returns is a
    weekday name holding hour keys from ["0"] to ["23"], or
    ["Invalid Date"] holding the one key ["NaN"]. *)
Theorem timeStats_keys host jsonData r day hours key count :
  Index.analyzeChat host jsonData = Normal r \/
  Chat.analyzeChat host jsonData = Normal r ->
  In (day, hours) (entries (timeStats r)) ->
  In (key, count) (entries hours) ->
  (day = "Invalid Date"%string /\ key = "NaN"%string) \/
  (In day weekdayNames /\ exists h, 0 <= h <= 23 /\ key = numKey (Int h)).
Proof.
  intros H Hd Hk.
  pose proof (analyzeChat_inv host jsonData r H) as [_ _ [Hh _]].
  rewrite Chat_analyzeChat_same in H.
  assert (H' : Index.analyzeChat host jsonData = Normal r) by tauto.
  pose proof (Index_analyzeChat_perCell host jsonData r H' day key) as Hc.
  apply (proj1 (In_entries _ _)) in Hd. apply (proj1 (In_entries _ _)) in Hk.
  assert (Ed : getOwn (timeStats r) day = Some hours)
    by (apply In_getOwn; [apply Hh | assumption]).
  destruct (histogram_day _ _ _ Hh Ed) as (Hdist & _ & _).
  unfold cellAt, hoursOf in Hc. rewrite Ed, (In_getOwn hours key count Hdist Hk) in Hc.
  destruct (Z.eqb_spec (countIf (inCell host day key) (ChatData.messages jsonData)) 0)
    as [|Hz]; [discriminate|].
  destruct (countIf_pos _ _ Hz) as (m & _ & Hm).
  unfold inCell in Hm. apply andb_prop in Hm. destruct Hm as [Hm Hkey].
  apply andb_prop in Hm. destruct Hm as [_ Hday].
  apply String.eqb_eq in Hkey, Hday. subst day key.
  destruct (slot_valid host m) as [[-> ->]|(Hin & h & Hh24 & ->)].
  - left. auto.
  - right. split; [assumption|]. exists h. auto.
Qed.

Lemma timeStats_keys_witness :
  Index.analyzeChat utc scenario = Normal scenarioAnalysis /\
  In ("Monday"%string, [("10"%string, Int 2); ("14"%string, Int 1)])
    (entries (timeStats scenarioAnalysis)) /\
  In ("14"%string, Int 1) (entries [("10"%string, Int 2); ("14"%string, Int 1)]) /\
  (("Monday" = "Invalid Date" /\ "14" = "NaN")%string \/
   (In "Monday"%string weekdayNames /\
    exists h, 0 <= h <= 23 /\ "14"%string = numKey (Int h))).
Proof.
  split; [reflexivity|]. split; [left; reflexivity|].
  split; [right; left; reflexivity|].
  apply (timeStats_keys utc scenario scenarioAnalysis "Monday"
           [("10"%string, Int 2); ("14"%string, Int 1)] "14" (Int 1)).
  - left. reflexivity.
  - left. reflexivity.
  - right. left. reflexivity.
Defined.

(** [analyzeChat] ignores the messages without a sender: it returns on a
    message list what it returns on the list with those messages removed. *)
Theorem analyzeChat_ignores_senderless host msgs :
  Index.analyzeChat host {| ChatData.messages := msgs |} =
    Index.analyzeChat host {| ChatData.messages := filter hasSender msgs |} /\
  Chat.analyzeChat host {| ChatData.messages := msgs |} =
    Chat.analyzeChat host {| ChatData.messages := filter hasSender msgs |}.
Proof.
  rewrite !Chat_analyzeChat_same. unfold Index.analyzeChat. simpl.
  assert (G : forall acc,
             forEach (Index.forEachBody host) msgs acc =
             forEach (Index.forEachBody host) (filter hasSender msgs) acc).
  { induction msgs as [|m msgs IH]; intros acc; simpl; [reflexivity|].
    destruct (hasSender m) eqn:Hs; simpl.
    - destruct (Index.forEachBody host acc m); simpl; auto.
    - rewrite forEachBody_skip by assumption. simpl. apply IH. }
  split; apply G.
Qed.

(* ===================================================================== *)
(** ** The peak finder on any histogram *)
(* ===================================================================== *)

(** Whatever the cells hold, the scan ends on its start value, when no
    cell holds a greater count, or on a cell with a greater count. *)
Lemma better_fold_any l :
  forall d h m,
  exists d' h' m',
    fold_left better l (d, h, Int m) = (d', h', Int m') /\
    (((d', h', m') = (d, h, m) /\ noneAbove m l) \/
     (m < m' /\ exists hour, In (d', hour, Int m') l /\ h' = parseInt hour)).
Proof.
  unfold noneAbove.
  induction l as [|[[day hour] count] l IH]; intros d h m.
  - exists d, h, m. split; [reflexivity|]. left. split; [reflexivity|constructor].
  - simpl. destruct (numGt count (Int m)) eqn:Hgt.
    + destruct count as [z|]; [|discriminate]. simpl in Hgt.
      apply Z.ltb_lt in Hgt.
      destruct (IH day (parseInt hour) z) as (d' & h' & m' & E & Hor).
      exists d', h', m'. split; [exact E|]. right.
      destruct Hor as [(Heq & _)|(Hlt & hour' & Hin & Hh)].
      * injection Heq as -> -> ->. split; [assumption|]. exists hour. simpl. auto.
      * split; [lia|]. exists hour'. simpl. auto.
    + destruct (IH d h m) as (d' & h' & m' & E & Hor).
      exists d', h', m'. split; [exact E|].
      destruct Hor as [(Heq & Hall)|(Hlt & hour' & Hin & Hh)].
      * left. split; [assumption|]. constructor; assumption.
      * right. split; [assumption|]. exists hour'. simpl. auto.
Qed.

(** [findPeakTime] of index.ts returns the sentinel exactly when no cell of
    the histogram holds a count above 0. *)
Theorem Index_findPeakTime_sentinel ts :
  Index.findPeakTime ts = sentinel <-> noneAbove 0 (cells ts).
Proof.
  rewrite Index_findPeakTime_cells. unfold initialBest, sentinel.
  destruct (better_fold_any (cells ts) ""%string (Int (-1)) 0)
    as (d' & h' & m' & E & Hor).
  rewrite E. simpl. split.
  - intros [= -> -> ->]. destruct Hor as [(_ & Hall)|(Hlt & _)]; [assumption|lia].
  - intros Hall. destruct Hor as [(Heq & _)|(Hlt & hour & Hin & _)].
    + now injection Heq as -> -> ->.
    + exfalso. unfold noneAbove in Hall. rewrite Forall_forall in Hall.
      specialize (Hall _ Hin). simpl in Hall. apply Z.ltb_ge in Hall. lia.
Qed.

Lemma In_getOwn_some {V} (o : object V) k v : In (k, v) o -> getOwn o k <> None.
Proof.
  intros Hin E. apply getOwn_None in E. apply E.
  now apply (in_map fst) in Hin.
Qed.

(** [findPeakTime] of chat.ts throws exactly when no cell of the histogram
    holds a count above 0 and the histogram has no key [""]; in every other
    case it returns. *)
Theorem Chat_findPeakTime_throws host ts :
  Chat.findPeakTime host ts = Throw TypeError <->
  noneAbove 0 (cells ts) /\ getOwn ts "" = None.
Proof.
  rewrite Chat_findPeakTime_scan, Index_findPeakTime_cells. cbv zeta.
  unfold initialBest.
  destruct (better_fold_any (cells ts) ""%string (Int (-1)) 0)
    as (d' & h' & m' & E & Hor).
  rewrite E. simpl.
  destruct Hor as [(Heq & Hall)|(Hlt & hour & Hin & _)].
  - injection Heq as -> -> ->.
    destruct (getOwn ts "") eqn:G; split; try discriminate; intuition discriminate.
  - assert (G : getOwn ts d' <> None).
    { apply In_cells in Hin. destruct Hin as (hours & Hd & _).
      now apply In_getOwn_some in Hd. }
    destruct (getOwn ts d'); [|congruence]. split; [discriminate|].
    intros [Hall _]. exfalso. unfold noneAbove in Hall.
    rewrite Forall_forall in Hall. specialize (Hall _ Hin). simpl in Hall.
    apply Z.ltb_ge in Hall. lia.
Qed.

(** The scan ends on the first cell, in the order of the two loops, among
    those that hold the greatest count. *)
Lemma better_fold_first l :
  Forall (fun c => positiveCell (snd c)) l ->
  forall d h m, 0 <= m ->
  (fold_left better l (d, h, Int m) = (d, h, Int m) /\
   Forall (fun c => cellZ (snd c) <= m) l) \/
  (exists before day hour count after,
     l = before ++ (day, hour, Int count) :: after /\
     m < count /\
     Forall (fun c => cellZ (snd c) < count) before /\
     Forall (fun c => cellZ (snd c) <= count) after /\
     fold_left better l (d, h, Int m) = (day, parseInt hour, Int count)).
Proof.
  induction 1 as [|[[day hour] c] l Hc _ IH]; intros d h m Hm.
  - left. split; [reflexivity|constructor].
  - destruct Hc as (z & Hz & Hpos). simpl in Hz. subst c. simpl.
    destruct (Z.ltb_spec m z) as [Hlt|Hge].
    + right. destruct (IH day (parseInt hour) z ltac:(lia))
        as [(E & Hall)|(before & day' & hour' & count & after & -> & Hlt' & Hb & Ha & E)].
      * exists [], day, hour, z, l. simpl. split; [reflexivity|]. split; [lia|].
        split; [constructor|]. split; assumption.
      * exists ((day, hour, Int z) :: before), day', hour', count, after.
        simpl. split; [reflexivity|]. split; [lia|].
        split; [constructor; [simpl; lia | assumption]|]. split; assumption.
    + destruct (IH d h m Hm)
        as [(E & Hall)|(before & day' & hour' & count & after & -> & Hlt' & Hb & Ha & E)].
      * left. split; [assumption|]. constructor; [simpl; lia | assumption].
      * right. exists ((day, hour, Int z) :: before), day', hour', count, after.
        simpl. split; [reflexivity|]. split; [lia|].
        split; [constructor; [simpl; lia | assumption]|]. split; assumption.
Qed.

(** On a non-empty histogram both [findPeakTime] return the first cell, in
    the order of [Object.entries] over the days and then the hours, among
    the cells with the greatest count: a later cell that ties does not
    replace it. *)
Theorem findPeakTime_first_maximum host ts :
  histogram ts -> ts <> [] ->
  exists before day hour count after average,
    cells ts = before ++ (day, hour, Int count) :: after /\
    Forall (fun c => cellZ (snd c) < count) before /\
    Forall (fun c => cellZ (snd c) <= count) after /\
    Index.findPeakTime ts =
      {| Index.peakDay := day; Index.peakHour := parseInt hour;
         Index.maxMessages := Int count |} /\
    Chat.findPeakTime host ts =
      Normal {| Chat.peakDay := day; Chat.peakHour := parseInt hour;
                Chat.maxMessages := Int count; Chat.averageMessages := average |}.
Proof.
  intros Hh Hne.
  destruct (better_fold_first _ (histogram_cells _ Hh) ""%string (Int (-1)) 0 ltac:(lia))
    as [(_ & Hall)|(before & day & hour & count & after & Hsplit & Hlt & Hb & Ha & E)].
  - exfalso. pose proof (histogram_cells_nonempty _ Hh Hne) as Hc.
    pose proof (histogram_cells _ Hh) as Hp.
    destruct (cells ts) as [|c l]; [congruence|].
    inversion Hall as [|? ? Hc1 _]; subst.
    inversion Hp as [|? ? (z & Hz & Hpos) _]; subst.
    rewrite Hz in Hc1. simpl in Hc1. lia.
  - assert (Hin : In (day, hour, Int count) (cells ts))
      by (rewrite Hsplit; apply in_elt).
    apply In_cells in Hin. destruct Hin as (hours & Hd & _).
    assert (G : getOwn ts day = Some hours) by (apply In_getOwn; [apply Hh|assumption]).
    eexists before, day, hour, count, after, _.
    split; [exact Hsplit|]. split; [exact Hb|]. split; [exact Ha|].
    rewrite Chat_findPeakTime_scan, Index_findPeakTime_cells. cbv zeta.
    fold initialBest in E. unfold initialBest in *. rewrite E. simpl.
    rewrite G. split; reflexivity.
Qed.

Lemma tiedHistogram_histogram : histogram tiedHistogram.
Proof.
  unfold tiedHistogram, histogram, distinctKeys. simpl. split.
  - repeat constructor. simpl. tauto.
  - repeat constructor; simpl.
    + intros [H|[]]. discriminate H.
    + tauto.
    + discriminate.
    + exists 2. split; [reflexivity|lia].
    + exists 2. split; [reflexivity|lia].
Qed.

Lemma findPeakTime_first_maximum_witness :
  histogram tiedHistogram /\ tiedHistogram <> [] /\
  exists before day hour count after average,
    cells tiedHistogram = before ++ (day, hour, Int count) :: after /\
    Forall (fun c => cellZ (snd c) < count) before /\
    Forall (fun c => cellZ (snd c) <= count) after /\
    Index.findPeakTime tiedHistogram =
      {| Index.peakDay := day; Index.peakHour := parseInt hour;
         Index.maxMessages := Int count |} /\
    Chat.findPeakTime utc tiedHistogram =
      Normal {| Chat.peakDay := day; Chat.peakHour := parseInt hour;
                Chat.maxMessages := Int count; Chat.averageMessages := average |}.
Proof.
  split; [exact tiedHistogram_histogram|]. split; [discriminate|].
  apply (findPeakTime_first_maximum utc tiedHistogram).
  - exact tiedHistogram_histogram.
  - discriminate.
Defined.

(** Hour 14 was recorded before hour 9 and both hold 2: the loops visit the
    key ["9"] first, so hour 9 is the peak. *)
Lemma tied_peak_is_hour_9 :
  Index.findPeakTime tiedHistogram =
    {| Index.peakDay := "Monday"; Index.peakHour := Int 9;
       Index.maxMessages := Int 2 |}.
Proof. reflexivity. Qed.

(* ===================================================================== *)
(** ** The denominators and the keys of [calculatePercentages] *)
(* ===================================================================== *)

(** For every user [main] hands to [calculatePercentages], the message
    counter is at least 1 and at most the grand total
    [jsonData.messages.length], and so is every media counter at most the
    grand total: neither denominator is 0 and no share exceeds the whole. *)
Theorem counters_within_grand_total host jsonData r user stats :
  Index.analyzeChat host jsonData = Normal r \/
  Chat.analyzeChat host jsonData = Normal r ->
  In (user, stats) (entries (userStats r)) ->
  1 <= Stats.messages stats <= totalMessages jsonData /\
  forall k, 0 <= kindCount k stats <= totalMessages jsonData.
Proof.
  intros H Hin.
  pose proof (analyzeChat_inv host jsonData r H) as [[Hd _ Hb _ _] _ _].
  rewrite Chat_analyzeChat_same in H.
  assert (H' : Index.analyzeChat host jsonData = Normal r) by tauto.
  pose proof (Index_analyzeChat_perUser host jsonData r H' user) as Hu.
  apply (proj1 (In_entries _ _)) in Hin.
  rewrite (In_getOwn _ _ _ Hd Hin) in Hu.
  destruct (inherited user || _); [discriminate|]. injection Hu as ->.
  rewrite Forall_forall in Hb. destruct (Hb _ Hin) as [B _]. simpl in B.
  unfold totalMessages. split.
  - split; [exact B|]. apply countIf_le_length.
  - intros k. destruct k; simpl; apply countIf_le_length.
Qed.

Lemma counters_within_grand_total_witness :
  Index.analyzeChat utc scenario = Normal scenarioAnalysis /\
  In ("u1"%string, u1Stats) (entries (userStats scenarioAnalysis)) /\
  1 <= Stats.messages u1Stats <= totalMessages scenario /\
  forall k, 0 <= kindCount k u1Stats <= totalMessages scenario.
Proof.
  split; [reflexivity|]. split; [left; reflexivity|].
  apply (counters_within_grand_total utc scenario scenarioAnalysis "u1" u1Stats).
  - left. reflexivity.
  - left. reflexivity.
Defined.

Lemma getOwn_entries {V} (o : object V) k :
  distinctKeys o -> getOwn (entries o) k = getOwn o k.
Proof.
  intros Hd. destruct (getOwn o k) as [v|] eqn:E.
  - apply In_getOwn; [now apply distinctKeys_entries|].
    apply In_entries. now apply getOwn_In.
  - apply getOwn_None. apply getOwn_None in E. intros Hin. apply E.
    eapply Permutation_in; [|exact Hin]. apply Permutation_map, entries_perm.
Qed.

Lemma fold_put_lookup_any {V W} (f : V -> W) (l : list (string * V)) :
  NoDup (map fst l) ->
  getOwn l "__proto__" = None ->
  forall (o : object W) k,
    getOwn (fold_left (fun o '(k, v) => put o k (f v)) l o) k =
    match getOwn l k with
    | Some v => Some (f v)
    | None => getOwn o k
    end.
Proof.
  induction l as [|[k1 v1] l IH]; intros Hnd Hp o k; simpl; [reflexivity|].
  inversion Hnd as [|? ? Hnotin Hnd']; subst. simpl in Hp.
  destruct (String.eqb_spec k1 "__proto__") as [|Hk1]; [discriminate|].
  rewrite IH by assumption.
  destruct (String.eqb_spec k1 k) as [->|Hne].
  - rewrite (proj2 (getOwn_None l k) Hnotin). now apply getOwn_put_same.
  - destruct (getOwn l k); [reflexivity|]. now apply getOwn_put_other.
Qed.

(** [calculatePercentages] stores one record per user of [userStats], the
    one computed from that user's counters, and none for anyone else
    (for a [userStats] without an own key [__proto__], such as the one
    [analyzeChat] returns). *)
Theorem calculatePercentages_lookup host us total user :
  distinctKeys us -> getOwn us "__proto__" = None ->
  getOwn (Index.calculatePercentages host us total) user =
    option_map (fun stats => Index.percentagesOf host stats total) (getOwn us user) /\
  getOwn (Chat.calculatePercentages host us total) user =
    option_map (fun stats => Chat.percentagesOf host stats total) (getOwn us user).
Proof.
  intros Hd Hp.
  assert (G : getOwn (Index.calculatePercentages host us total) user =
              option_map (fun stats => Index.percentagesOf host stats total)
                (getOwn us user)).
  { unfold Index.calculatePercentages.
    rewrite (fold_put_lookup_any (fun stats => Index.percentagesOf host stats total)).
    - rewrite getOwn_entries by assumption. now destruct (getOwn us user).
    - now apply distinctKeys_entries.
    - now rewrite getOwn_entries. }
  split; exact G.
Qed.

Lemma calculatePercentages_lookup_witness :
  distinctKeys (userStats scenarioAnalysis) /\
  getOwn (userStats scenarioAnalysis) "__proto__" = None /\
  getOwn (Index.calculatePercentages utc (userStats scenarioAnalysis) 4) "u3" =
    option_map (fun stats => Index.percentagesOf utc stats 4)
      (getOwn (userStats scenarioAnalysis) "u3") /\
  getOwn (Chat.calculatePercentages utc (userStats scenarioAnalysis) 4) "u3" =
    option_map (fun stats => Chat.percentagesOf utc stats 4)
      (getOwn (userStats scenarioAnalysis) "u3").
Proof.
  assert (Hd : distinctKeys (userStats scenarioAnalysis)).
  { unfold distinctKeys. simpl. repeat constructor; simpl.
    - intros [H|[]]. discriminate H.
    - tauto. }
  split; [exact Hd|]. split; [reflexivity|].
  apply (calculatePercentages_lookup utc (userStats scenarioAnalysis) 4 "u3").
  - exact Hd.
  - reflexivity.
Defined.

(* ===================================================================== *)
(** ** The report *)
(* ===================================================================== *)

(** For an hour from 0 to 23 [formatHour] of chat.ts gives two fields of
    two digits each, around [":00 - "]: the hour, and the hour plus one, so
    that hour 23 ends at 24 and not at 00. *)
Theorem formatHour_fields h :
  0 <= h <= 23 ->
  exists a b,
    Chat.formatHour (Int h) = (a ++ ":00 - " ++ b ++ ":00")%string /\
    String.length a = 2%nat /\ String.length b = 2%nat /\
    parseInt a = Int h /\ parseInt b = Int (h + 1).
Proof.
  intros Hh.
  exists (padStart2 (numKey (Int h))), (padStart2 (numKey (Int (h + 1)))).
  split; [reflexivity|].
  assert (C : h = 0 \/ h = 1 \/ h = 2 \/ h = 3 \/ h = 4 \/ h = 5 \/ h = 6 \/ h = 7 \/ h = 8 \/ h = 9 \/ h = 10 \/ h = 11 \/ h = 12 \/ h = 13 \/ h = 14 \/ h = 15 \/ h = 16 \/ h = 17 \/ h = 18 \/ h = 19 \/ h = 20 \/ h = 21 \/ h = 22 \/ h = 23) by lia.
  repeat (destruct C as [->|C]; [vm_compute; repeat split|]).
  subst h. vm_compute. repeat split.
Qed.

Lemma formatHour_fields_witness :
  0 <= 23 <= 23 /\
  exists a b,
    Chat.formatHour (Int 23) = (a ++ ":00 - " ++ b ++ ":00")%string /\
    String.length a = 2%nat /\ String.length b = 2%nat /\
    parseInt a = Int 23 /\ parseInt b = Int (23 + 1).
Proof.
  split; [lia|]. apply (formatHour_fields 23). lia.
Defined.

Lemma printEach_all {A} (body : A -> run) (k : nat) (l : list A) :
  (forall a, In a l ->
     exists lines, body a = (lines, Normal tt) /\ List.length lines = k) ->
  exists lines,
    printEach body l = (lines, Normal tt) /\
    List.length lines = (k * List.length l)%nat.
Proof.
  induction l as [|a l IH]; intros H; simpl.
  - exists []. split; [reflexivity|]. simpl. lia.
  - destruct (H a (or_introl eq_refl)) as (lines & E & Hk). rewrite E.
    destruct IH as (more & E' & Hm); [intros b Hb; apply H; now right|].
    rewrite E'. exists (lines ++ more). split; [reflexivity|].
    rewrite length_app. lia.
Qed.

Lemma last_Some_In {A} (l : list A) x : last (map Some l) None = Some x -> In x l.
Proof.
  induction l as [|a l IH]; simpl; [discriminate|].
  destruct l as [|b l]; simpl in *.
  - intros [= ->]. now left.
  - intros H. right. apply IH. exact H.
Qed.

Lemma In_namesOf_truthy id msgs name :
  In name (namesOf id msgs) -> truthy (Some name) = true.
Proof.
  unfold namesOf. rewrite in_flat_map. intros (m & _ & H).
  destruct (sentBy id m); [|destruct H].
  destruct (from m) as [n|]; [|destruct H].
  destruct (truthy (Some n)) eqn:E; [|destruct H].
  destruct H as [<-|[]]. exact E.
Qed.

Lemma inherited_proto k : inherited k = false -> k <> "__proto__"%string.
Proof. intros H ->. discriminate H. Qed.

(** The name [main] shows for a user, [userNames[user] || "Unknown"], is
    the last non-empty display name among the sender's messages, and
    ["Unknown"] when the sender supplied none. *)
Theorem displayName_shown host memberText jsonData r user stats :
  Index.analyzeChat host jsonData = Normal r \/
  Chat.analyzeChat host jsonData = Normal r ->
  In (user, stats) (entries (userStats r)) ->
  displayName memberText (userNames r) user =
  shownName user (ChatData.messages jsonData).
Proof.
  intros H Hin.
  pose proof (analyzeChat_inv host jsonData r H) as [[_ Hown _ _ _] Hun _].
  apply (proj1 (In_entries _ _)) in Hin.
  rewrite Forall_forall in Hown. specialize (Hown _ Hin). simpl in Hown.
  specialize (Hun user).
  destruct (String.eqb_spec user "__proto__") as [->|_]; [discriminate|].
  unfold displayName, shownName, get. rewrite Hun, Hown.
  destruct (lastName user (ChatData.messages jsonData)) as [name|] eqn:E;
    [|reflexivity].
  unfold lastName in E. apply last_Some_In in E.
  now rewrite (In_namesOf_truthy _ _ _ E).
Qed.

Lemma displayName_shown_witness :
  Index.analyzeChat utc scenario = Normal scenarioAnalysis /\
  In ("u2"%string, u2Stats) (entries (userStats scenarioAnalysis)) /\
  displayName noMemberText (userNames scenarioAnalysis) "u2" = "Unknown"%string.
Proof.
  split; [reflexivity|]. split; [right; left; reflexivity|].
  apply (displayName_shown utc noMemberText scenario scenarioAnalysis "u2" u2Stats).
  - left. reflexivity.
  - right. left. reflexivity.
Defined.

Lemma Index_userBlock_own host colors memberText un us total user stats :
  distinctKeys us ->
  Forall (fun e => inherited (fst e) = false) us ->
  In (user, stats) (entries us) ->
  exists lines,
    Index.userBlock colors memberText un
      (Index.calculatePercentages host us total) (user, stats) = (lines, Normal tt) /\
    List.length lines = 9%nat.
Proof.
  intros Hd Hown Hin. unfold Index.userBlock.
  rewrite (proj2 (get_Own _ _ _)
             (Index_calculatePercentages_lookup host us total user stats Hd Hown Hin)).
  eexists. split; reflexivity.
Qed.

Lemma Chat_userBlock_own host chalk memberText un us total user stats :
  distinctKeys us ->
  Forall (fun e => inherited (fst e) = false) us ->
  In (user, stats) (entries us) ->
  exists lines,
    Chat.userBlock chalk memberText un
      (Chat.calculatePercentages host us total) (user, stats) = (lines, Normal tt) /\
    List.length lines = 9%nat.
Proof.
  intros Hd Hown Hin. unfold Chat.userBlock.
  change (Chat.calculatePercentages host us total)
    with (Index.calculatePercentages host us total).
  rewrite (proj2 (get_Own _ _ _)
             (Index_calculatePercentages_lookup host us total user stats Hd Hown Hin)).
  eexists. split; reflexivity.
Qed.

(** Whenever [analyzeChat] returns, [main] of index.ts runs to its end
    without an exception: every user it iterates has a record in
    [userPercentages].  It prints the two headings, nine lines per entry of
    [userStats], and the four lines of the peak block. *)
Theorem Index_main_completes host colors memberText jsonData r :
  Index.analyzeChat host jsonData = Normal r ->
  exists heading blocks,
    Index.main host colors memberText jsonData =
      (heading ++ blocks ++ Index.peakBlock colors (Index.findPeakTime (timeStats r)),
       Normal tt) /\
    List.length heading = 2%nat /\
    List.length blocks = (9 * List.length (entries (userStats r)))%nat.
Proof.
  intros H. pose proof (Index_analyzeChat_inv host jsonData r H) as [[Hd Hown _ _ _] _ _].
  unfold Index.main. rewrite H. cbv zeta.
  destruct (printEach_all
              (Index.userBlock colors memberText (userNames r)
                 (Index.calculatePercentages host (userStats r)
                    (Z.of_nat (List.length (ChatData.messages jsonData)))))
              9 (entries (userStats r))) as (blocks & E & Hlen).
  { intros [user stats] Hin. now apply Index_userBlock_own. }
  rewrite E. eexists _, blocks. split; [reflexivity|]. split; [reflexivity|exact Hlen].
Qed.

Lemma Index_main_completes_witness :
  Index.analyzeChat utc scenario = Normal scenarioAnalysis /\
  exists heading blocks,
    Index.main utc plainPicocolors noMemberText scenario =
      (heading ++ blocks
       ++ Index.peakBlock plainPicocolors (Index.findPeakTime (timeStats scenarioAnalysis)),
       Normal tt) /\
    List.length heading = 2%nat /\
    List.length blocks = (9 * List.length (entries (userStats scenarioAnalysis)))%nat.
Proof.
  split; [reflexivity|].
  apply (Index_main_completes utc plainPicocolors noMemberText scenario scenarioAnalysis).
  reflexivity.
Defined.

Lemma existsb_countIf {A} (p : A -> bool) l : existsb p l = true -> 1 <= countIf p l.
Proof.
  intros H. destruct (Z.eq_dec (countIf p l) 0) as [E|E].
  - apply countIf_zero in E. apply existsb_exists in H. destruct H as (x & Hx & Hp).
    rewrite Forall_forall in E. rewrite (E _ Hx) in Hp. discriminate.
  - pose proof (countIf_le_length p l). lia.
Qed.

(** Whenever [analyzeChat] returns and some message has a sender, [main]
    of chat.ts runs to its end without an exception, and prints the two
    headings, nine lines per entry of [userStats], and the five lines of
    the peak block. *)
Theorem Chat_main_completes host chalk memberText jsonData r :
  Chat.analyzeChat host jsonData = Normal r ->
  existsb hasSender (ChatData.messages jsonData) = true ->
  exists peak heading blocks,
    Chat.findPeakTime host (timeStats r) = Normal peak /\
    Chat.main host chalk memberText jsonData =
      (heading ++ blocks ++ Chat.peakBlock chalk peak, Normal tt) /\
    List.length heading = 2%nat /\
    List.length blocks = (9 * List.length (entries (userStats r)))%nat.
Proof.
  intros H Hs.
  pose proof (analyzeChat_inv host jsonData r (or_intror H))
    as [[Hd Hown _ _ _] _ [Hh Ht]].
  assert (Hne : timeStats r <> []).
  { intros E. rewrite E in Ht. apply existsb_countIf in Hs.
    unfold histZ in Ht. simpl in Ht. lia. }
  destruct (scan_peak _ Hh Hne) as (day & hours & hour & count & E & G & _ & _).
  assert (Hp : exists peak, Chat.findPeakTime host (timeStats r) = Normal peak).
  { unfold Chat.findPeakTime. rewrite Chat_scan_cells, E, G. eauto. }
  destruct Hp as (peak & Hp). exists peak.
  unfold Chat.main. rewrite H, Hp. cbv zeta.
  destruct (printEach_all
              (Chat.userBlock chalk memberText (userNames r)
                 (Chat.calculatePercentages host (userStats r)
                    (Z.of_nat (List.length (ChatData.messages jsonData)))))
              9 (entries (userStats r))) as (blocks & E' & Hlen).
  { intros [user stats] Hin. now apply Chat_userBlock_own. }
  rewrite E'. eexists _, blocks. split; [reflexivity|].
  split; [reflexivity|]. split; [reflexivity|exact Hlen].
Qed.

Lemma Chat_main_completes_witness :
  Chat.analyzeChat utc scenario = Normal scenarioAnalysis /\
  existsb hasSender (ChatData.messages scenario) = true /\
  exists peak heading blocks,
    Chat.findPeakTime utc (timeStats scenarioAnalysis) = Normal peak /\
    Chat.main utc plainChalk noMemberText scenario =
      (heading ++ blocks ++ Chat.peakBlock plainChalk peak, Normal tt) /\
    List.length heading = 2%nat /\
    List.length blocks = (9 * List.length (entries (userStats scenarioAnalysis)))%nat.
Proof.
  split; [reflexivity|]. split; [reflexivity|].
  apply (Chat_main_completes utc plainChalk noMemberText scenario scenarioAnalysis);
    reflexivity.
Defined.

Lemma analyzeChat_no_sender host msgs :
  Forall (fun m => hasSender m = false) msgs ->
  Index.analyzeChat host {| ChatData.messages := msgs |} = Normal noAnalysis.
Proof.
  intros H. unfold Index.analyzeChat. simpl. generalize noAnalysis.
  induction H as [|m msgs Hm _ IH]; intros acc; simpl; [reflexivity|].
  rewrite forEachBody_skip by assumption. simpl. apply IH.
Qed.

(** On a message list in which no message has a sender (the empty list
    included), [main] of index.ts prints the total, the two headings and the
    sentinel as the peak, day empty and time ["-1:00 - 00:00"], while [main]
    of chat.ts throws a TypeError before it prints anything. *)
Theorem main_without_sender host colors chalk memberText msgs :
  Forall (fun m => hasSender m = false) msgs ->
  Index.main host colors memberText {| ChatData.messages := msgs |} =
    ([ Picocolors.bold colors
         (Picocolors.underline colors
            ("Total Messages: " ++ decimal (Z.of_nat (List.length msgs)))%string);
       Picocolors.bold colors
         (Picocolors.underline colors (lineFeed ++ "User Statistics:")%string);
       Picocolors.bold colors
         (Picocolors.underline colors (lineFeed ++ "Peak Time for Messages:")%string);
       Picocolors.yellow colors "Day: ";
       Picocolors.yellow colors "Time: -1:00 - 00:00";
       Picocolors.yellow colors "Total Messages: 0" ],
     Normal tt) /\
  Chat.main host chalk memberText {| ChatData.messages := msgs |} =
    ([], Throw TypeError).
Proof.
  intros H. unfold Index.main, Chat.main.
  rewrite Chat_analyzeChat_same, (analyzeChat_no_sender host msgs H).
  split; reflexivity.
Qed.

Lemma main_without_sender_witness :
  Forall (fun m => hasSender m = false) [senderless] /\
  Chat.main utc plainChalk noMemberText {| ChatData.messages := [senderless] |} =
    ([], Throw TypeError).
Proof.
  assert (H : Forall (fun m => hasSender m = false) [senderless])
    by (repeat constructor).
  split; [exact H|].
  exact (proj2 (main_without_sender utc plainPicocolors plainChalk noMemberText
                  [senderless] H)).
Defined.
